(** * A shallow embedding of the web scraper ([main.go])

    The development follows the layout of the Go program:

    - [strings_Contains], [Header_Get], [detectAntiBotService] : the
      response-header side (anti-bot classifier);
    - [Node], [getTextContent], [extractMetaTag], [extractLink],
      [extractImage], [extractHeading], [extractData] : the extractor;
    - [resolveURL], [validateURL], [checkResponse], [scrapeWebPage],
      [scrapeHandler] : resolution, validation and the fetch pipeline.

    Go strings are byte sequences, modelled by [string] (a list of 8-bit
    [ascii]).  Go's [int] status code and heading level are [Z].  The
    [*ScrapedData] that the Go code mutates in place is threaded through
    explicitly: every extractor takes the record and returns the updated
    one.  Calls to [log.Printf] only write to the log and are left out. *)

From Stdlib Require Import ZArith String Ascii List Lia DecimalString.
From stdpp Require Import base option list gmap strings.

Set Default Proof Using "Type".

(** ** Results of fallible calls: a value or the error's message *)

Inductive result (A : Type) : Type :=
| Ok (a : A)
| Err (msg : string).
Arguments Ok {A} a.
Arguments Err {A} msg.

(** ** The [strings] package *)

(** [strings.HasPrefix]: byte-wise prefix test. *)
Fixpoint strings_HasPrefix (s prefix : string) : bool :=
  match prefix, s with
  | EmptyString, _ => true
  | String c prefix', String d s' =>
      if Ascii.eqb c d then strings_HasPrefix s' prefix' else false
  | String _ _, EmptyString => false
  end.

(** [strings.Contains]: [substr] occurs in [s] at some byte offset. *)
Fixpoint strings_Contains (s substr : string) : bool :=
  strings_HasPrefix s substr ||
  match s with
  | EmptyString => false
  | String _ s' => strings_Contains s' substr
  end.

(** [%d] of [fmt]: the decimal rendering of an integer. *)
Definition itoa (z : Z) : string := NilZero.string_of_int (Z.to_int z).

(** ** The [html] package's tree *)

Inductive NodeType : Type :=
| ErrorNode | TextNode | DocumentNode | ElementNode
| CommentNode | DoctypeNode | RawNode.

Definition NodeType_eqb (a b : NodeType) : bool :=
  match a, b with
  | ErrorNode, ErrorNode | TextNode, TextNode | DocumentNode, DocumentNode
  | ElementNode, ElementNode | CommentNode, CommentNode
  | DoctypeNode, DoctypeNode | RawNode, RawNode => true
  | _, _ => false
  end.

(** [html.Attribute]. *)
Record Attribute : Type := mkAttr {
  Namespace : string;
  Key : string;
  Val : string
}.

(** [html.Node].  The sibling chain [FirstChild], [NextSibling], ... that
    the Go loops walk is the list [Children], in document order. *)
Unset Elimination Schemes.
Inductive Node : Type := mkNode {
  Type_ : NodeType;
  Data : string;
  Attr : list Attribute;
  Children : list Node
}.
Set Elimination Schemes.

(** ** The result records *)

Record Link : Type := mkLink {
  Link_Href : string;
  Link_Text : string
}.

Record Heading : Type := mkHeading {
  Heading_Level : Z;
  Heading_Text : string
}.

Record ScrapedData : Type := mkScrapedData {
  URL : string;
  Title : string;
  Description : string;
  Keywords : string;
  Links : list Link;
  MetaTags : gmap string string;
  Images : list string;
  Headings : list Heading
}.

(** Field assignments [data.F = v] on the record. *)
Definition set_Title (d : ScrapedData) (v : string) : ScrapedData :=
  mkScrapedData (URL d) v (Description d) (Keywords d) (Links d)
                (MetaTags d) (Images d) (Headings d).
Definition set_Description (d : ScrapedData) (v : string) : ScrapedData :=
  mkScrapedData (URL d) (Title d) v (Keywords d) (Links d)
                (MetaTags d) (Images d) (Headings d).
Definition set_Keywords (d : ScrapedData) (v : string) : ScrapedData :=
  mkScrapedData (URL d) (Title d) (Description d) v (Links d)
                (MetaTags d) (Images d) (Headings d).
Definition set_Links (d : ScrapedData) (v : list Link) : ScrapedData :=
  mkScrapedData (URL d) (Title d) (Description d) (Keywords d) v
                (MetaTags d) (Images d) (Headings d).
Definition set_MetaTags (d : ScrapedData) (v : gmap string string)
  : ScrapedData :=
  mkScrapedData (URL d) (Title d) (Description d) (Keywords d) (Links d)
                v (Images d) (Headings d).
Definition set_Images (d : ScrapedData) (v : list string) : ScrapedData :=
  mkScrapedData (URL d) (Title d) (Description d) (Keywords d) (Links d)
                (MetaTags d) v (Headings d).
Definition set_Headings (d : ScrapedData) (v : list Heading) : ScrapedData :=
  mkScrapedData (URL d) (Title d) (Description d) (Keywords d) (Links d)
                (MetaTags d) (Images d) v.

(** ** Text of a subtree *)

(** [getTextContent]: a text node yields its data; any other node yields
    the concatenation of its children's text, in order. *)
Fixpoint getTextContent (n : Node) : string :=
  match n with
  | mkNode t d _ cs =>
      if NodeType_eqb t TextNode then d
      else fold_left (fun text c => text +:+ getTextContent c) cs ""
  end.

(** ** Meta tags *)

(** The three locals of [extractMetaTag]'s attribute loop. *)
Record MetaVars : Type := mkMetaVars {
  mv_name : string;
  mv_property : string;
  mv_content : string
}.

(** One iteration of the loop: the [switch attr.Key]. *)
Definition metaStep (v : MetaVars) (attr : Attribute) : MetaVars :=
  if (Key attr =? "name")%string then
    mkMetaVars (Val attr) (mv_property v) (mv_content v)
  else if (Key attr =? "property")%string then
    mkMetaVars (mv_name v) (Val attr) (mv_content v)
  else if (Key attr =? "content")%string then
    mkMetaVars (mv_name v) (mv_property v) (Val attr)
  else v.

(** The whole loop, from the zero values of the three strings. *)
Definition metaScan (attrs : list Attribute) : MetaVars :=
  fold_left metaStep attrs (mkMetaVars "" "" "").

Definition extractMetaTag (n : Node) (data : ScrapedData) : ScrapedData :=
  let v := metaScan (Attr n) in
  let name := mv_name v in
  let property := mv_property v in
  let content := mv_content v in
  if negb (name =? "")%string then
    let data := set_MetaTags data (<[name := content]> (MetaTags data)) in
    if (name =? "description")%string then set_Description data content
    else if (name =? "keywords")%string then set_Keywords data content
    else data
  else if negb (property =? "")%string then
    set_MetaTags data (<[property := content]> (MetaTags data))
  else data.

(** ** Response headers ([http.Header], [textproto]) *)

Definition is_lower (c : ascii) : bool :=
  (97 <=? nat_of_ascii c)%nat && (nat_of_ascii c <=? 122)%nat.
Definition is_upper (c : ascii) : bool :=
  (65 <=? nat_of_ascii c)%nat && (nat_of_ascii c <=? 90)%nat.
Definition is_digit (c : ascii) : bool :=
  (48 <=? nat_of_ascii c)%nat && (nat_of_ascii c <=? 57)%nat.

Fixpoint mem_byte (c : ascii) (s : string) : bool :=
  match s with
  | EmptyString => false
  | String d s' => Ascii.eqb c d || mem_byte c s'
  end.

(** The bytes of an HTTP token. *)
Definition validHeaderFieldByte (c : ascii) : bool :=
  is_lower c || is_upper c || is_digit c || mem_byte c "!#$%&'*+-.^_`|~".

Fixpoint all_bytes (p : ascii -> bool) (s : string) : bool :=
  match s with
  | EmptyString => true
  | String c s' => p c && all_bytes p s'
  end.

(** Upper case at the start and after each dash, lower case elsewhere. *)
Fixpoint canonicalize (upper : bool) (s : string) : string :=
  match s with
  | EmptyString => EmptyString
  | String c s' =>
      let c' :=
        if upper && is_lower c then ascii_of_nat (nat_of_ascii c - 32)
        else if negb upper && is_upper c then ascii_of_nat (nat_of_ascii c + 32)
        else c in
      String c' (canonicalize (Ascii.eqb c' "-") s')
  end.

(** [textproto.CanonicalMIMEHeaderKey]: a key holding a byte outside the
    token set is returned as it is. *)
Definition CanonicalMIMEHeaderKey (s : string) : string :=
  if all_bytes validHeaderFieldByte s then canonicalize true s else s.

(** [http.Response], as far as the scraper reads it.  [Header] is Go's
    [map[string][]string], keyed by canonical names; [Body] is what
    [io.ReadAll(resp.Body)] gives. *)
Record Response : Type := mkResponse {
  StatusCode : Z;
  Header : gmap string (list string);
  Body : result string
}.

(** [Header.Get]: the first value stored under the canonical form of
    [key], or the empty string. *)
Definition Header_Get (h : gmap string (list string)) (key : string) : string :=
  match h !! CanonicalMIMEHeaderKey key with
  | Some (v :: _) => v
  | _ => ""
  end.

(** ** Anti-bot classifier *)

Definition nonempty (s : string) : bool := negb (s =? "")%string.

Definition detectAntiBotService (resp : Response) : string :=
  let h := Header resp in
  if (Header_Get h "Server" =? "cloudflare")%string
     || nonempty (Header_Get h "CF-Ray") then "Cloudflare"
  else if nonempty (Header_Get h "X-Akamai-Transformed")
          || nonempty (Header_Get h "X-Akamai-Session-Info") then "Akamai"
  else if nonempty (Header_Get h "X-Amzn-RequestId")
          || nonempty (Header_Get h "X-Amzn-Trace-Id") then "AWS WAF"
  else if nonempty (Header_Get h "X-Iinfo")
          || (Header_Get h "X-CDN" =? "Incapsula")%string
       then "Imperva/Incapsula"
  else if nonempty (Header_Get h "X-DataDome") then "DataDome"
  else if nonempty (Header_Get h "X-Sucuri-ID")
          || nonempty (Header_Get h "X-Sucuri-Cache") then "Sucuri"
  else if strings_Contains (Header_Get h "Server") "PerimeterX"
       then "PerimeterX"
  else "".

(** ** Attribute scans with [break] *)

(** The loop of [extractLink] and [extractImage]: the value of the first
    attribute whose key is [key]; the zero value, the empty string, when
    the loop ends without a match. *)
Fixpoint firstAttr (key : string) (attrs : list Attribute) : string :=
  match attrs with
  | [] => ""
  | attr :: rest =>
      if (Key attr =? key)%string then Val attr else firstAttr key rest
  end.

(** ** Handler responses *)

Record ErrorResponse : Type := mkErrorResponse {
  Error : string;
  Message : string
}.

(** What a handler writes: the status code and the JSON-encoded value. *)
Inductive HandlerResponse : Type :=
| RespondError (statusCode : Z) (e : ErrorResponse)
| RespondData (statusCode : Z) (data : ScrapedData).

Definition sendError (statusCode : Z) (errorType message : string)
  : HandlerResponse :=
  RespondError statusCode (mkErrorResponse errorType message).

(** The response of the validation step to a refused string. *)
Definition invalidURL : HandlerResponse :=
  sendError 400 "invalid_url" "URL must be a valid http or https URL".

(** ** The response checks of [scrapeWebPage] *)

(** The status check, the content-type check and the body read of
    [scrapeWebPage].  The message built for a status other than 200 is
    passed to [fmt.Errorf] as the format; it holds no verb, since the
    digits and the seven labels hold no percent sign. *)
Definition checkResponse (resp : Response) : result string :=
  if negb (StatusCode resp =? 200)%Z then
    let antiBotInfo := detectAntiBotService resp in
    let errorMsg := "unexpected status code: " +:+ itoa (StatusCode resp) in
    let errorMsg :=
      if nonempty antiBotInfo
      then errorMsg +:+ " (detected: " +:+ antiBotInfo +:+ ")"
      else errorMsg in
    Err errorMsg
  else
    let contentType := Header_Get (Header resp) "Content-Type" in
    if negb (strings_Contains contentType "text/html") then
      Err ("content type is not HTML: " +:+ contentType)
    else
      match Body resp with
      | Err e => Err ("failed to read response body: " +:+ e)
      | Ok body => Ok body
      end.

(** ** The packages the scraper calls *)

(** The packages are taken as they are.  [Packages] gathers what the
    extractor and the validator call: [net/url] ([url.Parse], which
    fails or yields a [*url.URL]; its [Scheme] field; [ResolveReference];
    [String]), [strings.TrimSpace] and [html.Parse]. *)
Class Packages : Type := {
  url_URL : Type;
  url_Parse : string -> option url_URL;
  URL_Scheme : url_URL -> string;
  URL_ResolveReference : url_URL -> url_URL -> url_URL;
  URL_String : url_URL -> string;
  strings_TrimSpace : string -> string;
  html_Parse : string -> result Node
}.

(** [Transport] is the HTTP client: [http.NewRequestWithContext],
    [req.Header.Set] and [client.Do], which fails (also when the 15
    seconds are over) or yields the response. *)
Class Transport : Type := {
  Request : Type;
  http_NewRequestWithContext : string -> string -> result Request;
  Request_Header_Set : Request -> string -> string -> Request;
  client_Do : Request -> result Response
}.

Section Scraper.

Context {P : Packages} {T : Transport}.

Definition resolveURL (baseURL href : string) : string :=
  match url_Parse baseURL with
  | None => href
  | Some base =>
      match url_Parse href with
      | None => href
      | Some ref => URL_String (URL_ResolveReference base ref)
      end
  end.

Definition extractLink (n : Node) (data : ScrapedData) (baseURL : string)
  : ScrapedData :=
  let href := firstAttr "href" (Attr n) in
  if nonempty href then
    let absoluteURL := resolveURL baseURL href in
    let link := mkLink absoluteURL (strings_TrimSpace (getTextContent n)) in
    set_Links data (Links data ++ [link])
  else data.

Definition extractImage (n : Node) (data : ScrapedData) (baseURL : string)
  : ScrapedData :=
  let src := firstAttr "src" (Attr n) in
  if nonempty src then
    let absoluteURL := resolveURL baseURL src in
    set_Images data (Images data ++ [absoluteURL])
  else data.

Definition headingLevel (tag : string) : Z :=
  if (tag =? "h1")%string then 1
  else if (tag =? "h2")%string then 2
  else if (tag =? "h3")%string then 3
  else if (tag =? "h4")%string then 4
  else if (tag =? "h5")%string then 5
  else if (tag =? "h6")%string then 6
  else 0.

Definition extractHeading (n : Node) (data : ScrapedData) : ScrapedData :=
  let level := headingLevel (Data n) in
  let text := strings_TrimSpace (getTextContent n) in
  if nonempty text then
    let heading := mkHeading level text in
    set_Headings data (Headings data ++ [heading])
  else data.

(** The [case "h1", ..., "h6"] of [extractData]. *)
Definition isHeadingTag (tag : string) : bool :=
  (tag =? "h1")%string || (tag =? "h2")%string || (tag =? "h3")%string
  || (tag =? "h4")%string || (tag =? "h5")%string || (tag =? "h6")%string.

(** The first half of [extractData]: what is done for the node itself,
    before its children are walked. *)
Definition visitNode (n : Node) (data : ScrapedData) (baseURL : string)
  : ScrapedData :=
  if NodeType_eqb (Type_ n) ElementNode then
    if (Data n =? "title")%string then set_Title data (getTextContent n)
    else if (Data n =? "meta")%string then extractMetaTag n data
    else if (Data n =? "a")%string then extractLink n data baseURL
    else if (Data n =? "img")%string then extractImage n data baseURL
    else if isHeadingTag (Data n) then extractHeading n data
    else data
  else data.

Fixpoint extractData (n : Node) (data : ScrapedData) (baseURL : string)
  : ScrapedData :=
  match n with
  | mkNode _ _ _ cs =>
      fold_left (fun d c => extractData c d baseURL) cs
                (visitNode n data baseURL)
  end.

(** The [ScrapedData] literal of [scrapeWebPage]. *)
Definition newScrapedData (targetURL : string) : ScrapedData :=
  mkScrapedData targetURL "" "" "" [] ∅ [] [].

(** The six [req.Header.Set] calls; no [Accept-Encoding] is set. *)
Definition setBrowserHeaders (req : Request) : Request :=
  let req := Request_Header_Set req "User-Agent"
    "Mozilla/5.0 (Macintosh; Intel Mac OS X 10_15_7) AppleWebKit/537.36 (KHTML, like Gecko) Chrome/120.0.0.0 Safari/537.36" in
  let req := Request_Header_Set req "Accept"
    "text/html,application/xhtml+xml,application/xml;q=0.9,image/avif,image/webp,image/apng,*/*;q=0.8" in
  let req := Request_Header_Set req "Accept-Language" "en-US,en;q=0.9" in
  let req := Request_Header_Set req "DNT" "1" in
  let req := Request_Header_Set req "Connection" "keep-alive" in
  Request_Header_Set req "Upgrade-Insecure-Requests" "1".

Definition scrapeWebPage (targetURL : string) : result ScrapedData :=
  match http_NewRequestWithContext "GET" targetURL with
  | Err e => Err ("failed to create request: " +:+ e)
  | Ok req =>
      match client_Do (setBrowserHeaders req) with
      | Err e => Err ("failed to fetch URL: " +:+ e)
      | Ok resp =>
          match checkResponse resp with
          | Err e => Err e
          | Ok body =>
              match html_Parse body with
              | Err e => Err ("failed to parse HTML: " +:+ e)
              | Ok doc =>
                  Ok (extractData doc (newScrapedData targetURL) targetURL)
              end
          end
      end
  end.

(** The validation step of [scrapeHandler]: [Some] is the error response
    sent before returning, [None] lets the handler go on. *)
Definition validateURL (targetURL : string) : option HandlerResponse :=
  let invalid :=
    sendError 400 "invalid_url" "URL must be a valid http or https URL" in
  match url_Parse targetURL with
  | None => Some invalid
  | Some parsedURL =>
      if negb (URL_Scheme parsedURL =? "http")%string
         && negb (URL_Scheme parsedURL =? "https")%string
      then Some invalid
      else None
  end.

(** [scrapeHandler], from the request's method and its [url] query
    parameter. *)
Definition scrapeHandler (Method targetURL : string) : HandlerResponse :=
  if negb (Method =? "GET")%string then
    sendError 405 "method_not_allowed" "Only GET method is allowed"
  else if (targetURL =? "")%string then
    sendError 400 "missing_url" "URL parameter is required"
  else
    match validateURL targetURL with
    | Some r => r
    | None =>
        match scrapeWebPage targetURL with
        | Err err =>
            sendError 500 "scrape_failed" ("Failed to scrape URL: " +:+ err)
        | Ok data => RespondData 200 data
        end
    end.

End Scraper.

(** ** Document order *)

(** The nodes of a tree in pre-order: the node, then the subtrees of its
    children from first to last.  This is the order in which
    [extractData] reaches them. *)
Fixpoint preorder (n : Node) : list Node :=
  match n with
  | mkNode _ _ _ cs => n :: flat_map preorder cs
  end.

Definition isElement (tag : string) (n : Node) : bool :=
  NodeType_eqb (Type_ n) ElementNode && (Data n =? tag)%string.

Definition isHeadingElement (n : Node) : bool :=
  NodeType_eqb (Type_ n) ElementNode
  && ((Data n =? "h1")%string || (Data n =? "h2")%string
      || (Data n =? "h3")%string || (Data n =? "h4")%string
      || (Data n =? "h5")%string || (Data n =? "h6")%string).

(** The strings of a list joined end to end. *)
Definition concatStrings (l : list string) : string :=
  fold_right String.append "" l.

(** First and last occurrence of a key in an attribute list, with the
    empty string when the key does not occur. *)
Definition hasKey (key : string) (a : Attribute) : bool :=
  (Key a =? key)%string.
Definition firstVal (key : string) (attrs : list Attribute) : string :=
  from_option Val "" (head (List.filter (hasKey key) attrs)).
Definition lastVal (key : string) (attrs : list Attribute) : string :=
  from_option Val "" (last (List.filter (hasKey key) attrs)).

Definition metaName (n : Node) : string := lastVal "name" (Attr n).
Definition metaProperty (n : Node) : string := lastVal "property" (Attr n).
Definition metaContent (n : Node) : string := lastVal "content" (Attr n).

(** The key under which a [meta] element is filed: its name, or its
    property when the name is empty. *)
Definition metaKey (n : Node) : string :=
  if nonempty (metaName n) then metaName n else metaProperty n.

Definition isMetaNamed (name : string) (n : Node) : bool :=
  isElement "meta" n && (metaName n =? name)%string.
Definition isMetaKeyed (key : string) (n : Node) : bool :=
  isElement "meta" n && (metaKey n =? key)%string.

Section DocumentOrder.

Context {P : Packages}.

(** The per-node steps of [extractData], taken over a list of nodes. *)
Definition walk (baseURL : string) (l : list Node) (data : ScrapedData)
  : ScrapedData :=
  fold_left (fun d e => visitNode e d baseURL) l data.

(** What one node contributes to the three sequences. *)
Definition linkOf (baseURL : string) (n : Node) : list Link :=
  if isElement "a" n && nonempty (firstVal "href" (Attr n)) then
    [mkLink (resolveURL baseURL (firstVal "href" (Attr n)))
            (strings_TrimSpace (getTextContent n))]
  else [].

Definition imageOf (baseURL : string) (n : Node) : list string :=
  if isElement "img" n && nonempty (firstVal "src" (Attr n)) then
    [resolveURL baseURL (firstVal "src" (Attr n))]
  else [].

Definition headingOf (n : Node) : list Heading :=
  if isHeadingElement n
     && nonempty (strings_TrimSpace (getTextContent n)) then
    [mkHeading (headingLevel (Data n))
               (strings_TrimSpace (getTextContent n))]
  else [].

(** The two outcomes of a resolution: [stored] is the resolved
    reference, both strings having parsed, or it is [href] itself, one
    of them having failed to parse. *)
Definition resolvedOrVerbatim (baseURL href stored : string) : Prop :=
  (exists base ref,
      url_Parse baseURL = Some base /\ url_Parse href = Some ref
      /\ stored = URL_String (URL_ResolveReference base ref))
  \/ ((url_Parse baseURL = None \/ url_Parse href = None)
      /\ stored = href).

End DocumentOrder.

(** ** A small instance of the packages

    Used to run the definitions on concrete pages.  [url.Parse] is
    reduced to what the scraper looks at: it refuses a string holding an
    ASCII control byte or starting with a colon, and splits a leading
    scheme off (lower-cased); resolution only supplies the base's scheme
    to a reference that has none.  [strings.TrimSpace] is its ASCII
    path.  [html.Parse] is the tree it builds for a body of plain
    text. *)

Record SimpleURL : Type := mkSimpleURL {
  su_scheme : string;
  su_rest : string
}.

Definition is_ctl (c : ascii) : bool :=
  (nat_of_ascii c <? 32)%nat || (nat_of_ascii c =? 127)%nat.

Definition to_lower (c : ascii) : ascii :=
  if is_upper c then ascii_of_nat (nat_of_ascii c + 32) else c.

Fixpoint map_bytes (f : ascii -> ascii) (s : string) : string :=
  match s with
  | EmptyString => EmptyString
  | String c s' => String (f c) (map_bytes f s')
  end.

(** The scheme scan: [Some (scheme, rest)], or [None] for a leading
    colon.  [acc] holds the bytes read so far, last first. *)
Fixpoint simple_getScheme (acc : list ascii) (s : string)
  : option (string * string) :=
  match s with
  | EmptyString => Some ("", string_of_list_ascii (rev acc))
  | String c s' =>
      if is_lower c || is_upper c then simple_getScheme (c :: acc) s'
      else if is_digit c || mem_byte c "+-." then
        match acc with
        | [] => Some ("", s)
        | _ => simple_getScheme (c :: acc) s'
        end
      else if Ascii.eqb c ":" then
        match acc with
        | [] => None
        | _ => Some (string_of_list_ascii (rev acc), s')
        end
      else Some ("", string_of_list_ascii (rev acc) +:+ s)
  end.

Definition simple_Parse (s : string) : option SimpleURL :=
  if negb (all_bytes (fun c => negb (is_ctl c)) s) then None
  else
    match simple_getScheme [] s with
    | None => None
    | Some (scheme, rest) =>
        Some (mkSimpleURL (map_bytes to_lower scheme) rest)
    end.

Definition simple_ResolveReference (base ref : SimpleURL) : SimpleURL :=
  if nonempty (su_scheme ref) then ref
  else mkSimpleURL (su_scheme base) (su_rest ref).

Definition simple_String (u : SimpleURL) : string :=
  if nonempty (su_scheme u) then su_scheme u +:+ ":" +:+ su_rest u
  else su_rest u.

Definition asciiSpace (c : ascii) : bool :=
  let n := nat_of_ascii c in
  ((9 <=? n)%nat && (n <=? 13)%nat) || (n =? 32)%nat.

Fixpoint trimLeft (s : string) : string :=
  match s with
  | EmptyString => EmptyString
  | String c s' => if asciiSpace c then trimLeft s' else s
  end.

Fixpoint trimRight (s : string) : string :=
  match s with
  | EmptyString => EmptyString
  | String c s' =>
      let r := trimRight s' in
      if asciiSpace c && (r =? "")%string then EmptyString else String c r
  end.

Definition ascii_TrimSpace (s : string) : string := trimRight (trimLeft s).

Definition textNode (s : string) : Node := mkNode TextNode s [] [].
Definition element (tag : string) (attrs : list Attribute) (cs : list Node)
  : Node := mkNode ElementNode tag attrs cs.
Definition attr (k v : string) : Attribute := mkAttr "" k v.
Definition document (cs : list Node) : Node := mkNode DocumentNode "" [] cs.

Definition plain_Parse (body : string) : result Node :=
  Ok (document
        [element "html" []
           [element "head" [] []; element "body" [] [textNode body]]]).

Definition simplePackages : Packages := {|
  url_URL := SimpleURL;
  url_Parse := simple_Parse;
  URL_Scheme := su_scheme;
  URL_ResolveReference := simple_ResolveReference;
  URL_String := simple_String;
  strings_TrimSpace := ascii_TrimSpace;
  html_Parse := plain_Parse
|}.

(** The same packages with a parser that yields a given tree. *)
Definition packagesWithPage (doc : Node) : Packages := {|
  url_URL := SimpleURL;
  url_Parse := simple_Parse;
  URL_Scheme := su_scheme;
  URL_ResolveReference := simple_ResolveReference;
  URL_String := simple_String;
  strings_TrimSpace := ascii_TrimSpace;
  html_Parse := fun _ => Ok doc
|}.

(** A transport that answers every request with [r]. *)
Definition cannedTransport (r : result Response) : Transport := {|
  Request := string;
  http_NewRequestWithContext := fun _ targetURL => Ok targetURL;
  Request_Header_Set := fun req _ _ => req;
  client_Do := fun _ => r
|}.

Definition htmlResponse (status : Z) (body : string) : Response :=
  mkResponse status {[ "Content-Type" := ["text/html; charset=utf-8"] ]}
             (Ok body).

(** ** The classifier as a rule table *)

(** A header counts for the classifier when [Header.Get] gives a
    non-empty string for it. *)
Definition hasHeader (h : gmap string (list string)) (key : string) : bool :=
  nonempty (Header_Get h key).

(** The seven conditions of [detectAntiBotService] with their labels, in
    the order of the [if] statements. *)
Definition antiBotRules
  : list ((gmap string (list string) -> bool) * string) :=
  [ (fun h => (Header_Get h "Server" =? "cloudflare")%string
              || hasHeader h "CF-Ray", "Cloudflare");
    (fun h => hasHeader h "X-Akamai-Transformed"
              || hasHeader h "X-Akamai-Session-Info", "Akamai");
    (fun h => hasHeader h "X-Amzn-RequestId"
              || hasHeader h "X-Amzn-Trace-Id", "AWS WAF");
    (fun h => hasHeader h "X-Iinfo"
              || (Header_Get h "X-CDN" =? "Incapsula")%string,
     "Imperva/Incapsula");
    (fun h => hasHeader h "X-DataDome", "DataDome");
    (fun h => hasHeader h "X-Sucuri-ID"
              || hasHeader h "X-Sucuri-Cache", "Sucuri");
    (fun h => strings_Contains (Header_Get h "Server") "PerimeterX",
     "PerimeterX") ].

(** The label of the first rule whose condition holds; the empty string
    (no label) when none does. *)
Fixpoint firstMatch {H : Type} (rules : list ((H -> bool) * string))
         (h : H) : string :=
  match rules with
  | [] => ""
  | (c, label) :: rest => if c h then label else firstMatch rest h
  end.

(** The message of a status failure. *)
Definition statusMessage (code : Z) (label : string) : string :=
  if nonempty label
  then ("unexpected status code: " +:+ itoa code)
       +:+ " (detected: " +:+ label +:+ ")"
  else "unexpected status code: " +:+ itoa code.

(** ** Requests with their headers *)

(** [http.Request], as far as the scraper builds it: the method, the
    URL string and the header map. *)
Record HTTPRequest : Type := mkHTTPRequest {
  Req_Method : string;
  Req_URL : string;
  Req_Header : gmap string (list string)
}.

(** [Header.Set]: the values stored under the canonical form of [key]
    are replaced by the single [value]. *)
Definition Header_Set (h : gmap string (list string)) (key value : string)
  : gmap string (list string) :=
  <[CanonicalMIMEHeaderKey key := [value]]> h.

Definition HTTPRequest_Header_Set (req : HTTPRequest) (key value : string)
  : HTTPRequest :=
  mkHTTPRequest (Req_Method req) (Req_URL req)
                (Header_Set (Req_Header req) key value).

(** A transport over such requests; how a request is created and
    answered is left open. *)
Definition httpTransport
           (newRequest : string -> string -> result HTTPRequest)
           (do : HTTPRequest -> result Response) : Transport := {|
  Request := HTTPRequest;
  http_NewRequestWithContext := newRequest;
  Request_Header_Set := HTTPRequest_Header_Set;
  client_Do := do
|}.

(** The canonical names of the six headers [scrapeWebPage] sets. *)
Definition browserHeaderKeys : list string :=
  ["User-Agent"; "Accept"; "Accept-Language"; "Dnt"; "Connection";
   "Upgrade-Insecure-Requests"].

(** ** Tags, labels and header names the code refers to *)

(** The elements for which [extractData] does something. *)
Definition isHandled (n : Node) : bool :=
  NodeType_eqb (Type_ n) ElementNode
  && ((Data n =? "title")%string || (Data n =? "meta")%string
      || (Data n =? "a")%string || (Data n =? "img")%string
      || (Data n =? "h1")%string || (Data n =? "h2")%string
      || (Data n =? "h3")%string || (Data n =? "h4")%string
      || (Data n =? "h5")%string || (Data n =? "h6")%string).

(** The strings [detectAntiBotService] can return. *)
Definition antiBotLabels : list string :=
  ["Cloudflare"; "Akamai"; "AWS WAF"; "Imperva/Incapsula"; "DataDome";
   "Sucuri"; "PerimeterX"].

(** The header names [detectAntiBotService] passes to [Header.Get]. *)
Definition classifierHeaders : list string :=
  ["Server"; "CF-Ray"; "X-Akamai-Transformed"; "X-Akamai-Session-Info";
   "X-Amzn-RequestId"; "X-Amzn-Trace-Id"; "X-Iinfo"; "X-CDN"; "X-DataDome";
   "X-Sucuri-ID"; "X-Sucuri-Cache"].

(** The status codes [scrapeHandler] sends with each error token. *)
Definition errorStatus : list (string * Z) :=
  [("method_not_allowed", 405%Z); ("missing_url", 400%Z);
   ("invalid_url", 400%Z); ("scrape_failed", 500%Z)].

(** A heading as the data model wants it: a level from 1 to 6 and a
    text that is not empty. *)
Definition headingOk (h : Heading) : Prop :=
  (1 <= Heading_Level h <= 6)%Z /\ Heading_Text h <> "".

(** ** Text nodes of a tree *)

Definition isTextNode (n : Node) : bool := NodeType_eqb (Type_ n) TextNode.

(** Text nodes are leaves, as in every tree [html.Parse] builds. *)
Definition textNodesAreLeaves (n : Node) : Prop :=
  Forall (fun e => isTextNode e = true -> Children e = []) (preorder n).

(** What an element contributes, as a test. *)
Definition yieldsLink (n : Node) : bool :=
  isElement "a" n && nonempty (firstVal "href" (Attr n)).
Definition yieldsImage (n : Node) : bool :=
  isElement "img" n && nonempty (firstVal "src" (Attr n)).

(** * Properties *)

(** ** Strings *)

Lemma nonempty_true (s : string) : nonempty s = true <-> s <> "".
Proof.
  unfold nonempty. destruct (String.eqb_spec s ""); simpl; split; congruence.
Qed.

Lemma nonempty_false (s : string) : nonempty s = false <-> s = "".
Proof.
  unfold nonempty. destruct (String.eqb_spec s ""); simpl; split; congruence.
Qed.

(** The small instance keeps a scheme through resolution and prints
    it, as [net/url] does. *)
Lemma simple_resolve_keeps_scheme (b r : SimpleURL) :
  su_scheme b <> "" -> su_scheme (simple_ResolveReference b r) <> "".
Proof.
  intros Hb. unfold simple_ResolveReference.
  destruct (nonempty (su_scheme r)) eqn:Hr.
  - now apply nonempty_true.
  - exact Hb.
Qed.

Lemma simple_String_nonempty (u : SimpleURL) :
  su_scheme u <> "" -> simple_String u <> "".
Proof.
  intros Hu. unfold simple_String.
  pose proof Hu as Hn. apply nonempty_true in Hn. rewrite Hn.
  destruct (su_scheme u); [contradiction | discriminate].
Qed.

(** ** Induction on trees *)

Lemma Node_ind (Q : Node -> Prop) :
  (forall t d a cs, Forall Q cs -> Q (mkNode t d a cs)) ->
  forall n, Q n.
Proof.
  intros step. fix IH 1. intros [t d a cs]. apply step.
  induction cs as [|c cs IHcs]; constructor.
  - apply IH.
  - exact IHcs.
Qed.

(** ** Folds that overwrite and folds that append *)

Section Folds.

Context {S E A : Type} (step : S -> E -> S).

(** A field that each step either overwrites (when [p] holds of the
    element) or leaves alone ends up holding the value written by the
    last element satisfying [p]. *)
Lemma fold_last_writer (F : S -> A) (p : E -> bool) (v : E -> A) :
  (forall s e, F (step s e) = if p e then v e else F s) ->
  forall l s,
    F (fold_left step l s) = from_option v (F s) (last (List.filter p l)).
Proof.
  intros Hstep l. induction l as [|e l IH] using rev_ind; intros s.
  - reflexivity.
  - rewrite fold_left_app, List.filter_app. simpl. rewrite Hstep.
    destruct (p e).
    + now rewrite last_snoc.
    + rewrite app_nil_r. apply IH.
Qed.

(** A sequence that each step extends at the end collects the
    contributions in the order of the elements. *)
Lemma fold_appender {B : Type} (F : S -> list B) (g : E -> list B) :
  (forall s e, F (step s e) = F s ++ g e) ->
  forall l s, F (fold_left step l s) = F s ++ flat_map g l.
Proof.
  intros Hstep l. induction l as [|e l IH]; intros s; simpl.
  - now rewrite app_nil_r.
  - rewrite IH, Hstep. now rewrite <- app_assoc.
Qed.

End Folds.

(** ** Attribute scans *)

Lemma firstAttr_firstVal (key : string) (attrs : list Attribute) :
  firstAttr key attrs = firstVal key attrs.
Proof.
  unfold firstVal, hasKey. induction attrs as [|a attrs IH]; simpl.
  - reflexivity.
  - destruct (Key a =? key)%string; [reflexivity | exact IH].
Qed.

Lemma metaStep_fields (v : MetaVars) (a : Attribute) :
  mv_name (metaStep v a) = (if hasKey "name" a then Val a else mv_name v)
  /\ mv_property (metaStep v a)
     = (if hasKey "property" a then Val a else mv_property v)
  /\ mv_content (metaStep v a)
     = (if hasKey "content" a then Val a else mv_content v).
Proof.
  unfold metaStep, hasKey. destruct a as [ns k x]; simpl.
  destruct (String.eqb_spec k "name") as [->|Hn]; [now simpl|].
  destruct (String.eqb_spec k "property") as [->|Hp]; [now simpl|].
  destruct (String.eqb_spec k "content") as [->|Hc]; now simpl.
Qed.

Lemma metaScan_lastVal (attrs : list Attribute) :
  metaScan attrs
  = mkMetaVars (lastVal "name" attrs) (lastVal "property" attrs)
               (lastVal "content" attrs).
Proof.
  unfold metaScan, lastVal.
  pose proof (fold_last_writer metaStep mv_name (hasKey "name") Val
                (fun v a => proj1 (metaStep_fields v a)) attrs
                (mkMetaVars "" "" "")) as Hn.
  pose proof (fold_last_writer metaStep mv_property (hasKey "property") Val
                (fun v a => proj1 (proj2 (metaStep_fields v a))) attrs
                (mkMetaVars "" "" "")) as Hp.
  pose proof (fold_last_writer metaStep mv_content (hasKey "content") Val
                (fun v a => proj2 (proj2 (metaStep_fields v a))) attrs
                (mkMetaVars "" "" "")) as Hc.
  simpl in Hn, Hp, Hc.
  destruct (fold_left metaStep attrs (mkMetaVars "" "" "")) as [n p c].
  simpl in *. congruence.
Qed.

Lemma firstVal_split (key : string) (pre post : list Attribute)
      (a : Attribute) :
  Key a = key -> Forall (fun x => Key x <> key) pre ->
  firstVal key (pre ++ a :: post) = Val a.
Proof.
  intros Ha Hpre. unfold firstVal.
  induction Hpre as [|x pre Hx _ IH]; simpl.
  - unfold hasKey. rewrite Ha, String.eqb_refl. reflexivity.
  - unfold hasKey at 1. apply String.eqb_neq in Hx. rewrite Hx. exact IH.
Qed.

Lemma filter_none (key : string) (l : list Attribute) :
  Forall (fun x => Key x <> key) l -> List.filter (hasKey key) l = [].
Proof.
  induction 1 as [|x l Hx _ IH]; simpl; [reflexivity|].
  unfold hasKey at 1. apply String.eqb_neq in Hx. now rewrite Hx.
Qed.

Lemma lastVal_split (key : string) (pre post : list Attribute)
      (a : Attribute) :
  Key a = key -> Forall (fun x => Key x <> key) post ->
  lastVal key (pre ++ a :: post) = Val a.
Proof.
  intros Ha Hpost. unfold lastVal.
  rewrite List.filter_app. simpl. unfold hasKey at 2.
  rewrite Ha, String.eqb_refl, (filter_none key post Hpost).
  now rewrite last_snoc.
Qed.

Lemma lastVal_absent (key : string) (l : list Attribute) :
  Forall (fun x => Key x <> key) l -> lastVal key l = "".
Proof. intros H. unfold lastVal. now rewrite (filter_none key l H). Qed.

(** ** The extractor, node by node *)

Section Extractor.

Context {P : Packages}.

Lemma extractMetaTag_spec (n : Node) (d : ScrapedData) :
  extractMetaTag n d =
  if nonempty (metaName n) then
    let d' := set_MetaTags d (<[metaName n := metaContent n]> (MetaTags d)) in
    if (metaName n =? "description")%string
    then set_Description d' (metaContent n)
    else if (metaName n =? "keywords")%string
         then set_Keywords d' (metaContent n)
         else d'
  else if nonempty (metaProperty n) then
    set_MetaTags d (<[metaProperty n := metaContent n]> (MetaTags d))
  else d.
Proof.
  unfold extractMetaTag, metaName, metaProperty, metaContent, nonempty.
  rewrite metaScan_lastVal. reflexivity.
Qed.

Lemma extractLink_spec (n : Node) (d : ScrapedData) (b : string) :
  extractLink n d b =
  if nonempty (firstVal "href" (Attr n)) then
    set_Links d (Links d
                 ++ [mkLink (resolveURL b (firstVal "href" (Attr n)))
                            (strings_TrimSpace (getTextContent n))])
  else d.
Proof. unfold extractLink. now rewrite firstAttr_firstVal. Qed.

Lemma extractImage_spec (n : Node) (d : ScrapedData) (b : string) :
  extractImage n d b =
  if nonempty (firstVal "src" (Attr n)) then
    set_Images d (Images d ++ [resolveURL b (firstVal "src" (Attr n))])
  else d.
Proof. unfold extractImage. now rewrite firstAttr_firstVal. Qed.

(** Case analysis on the tag of an element, in the order of the
    [switch] of [extractData]. *)
Ltac tag_cases tag :=
  destruct (String.eqb_spec tag "title") as [->|?];
  [|destruct (String.eqb_spec tag "meta") as [->|?];
    [|destruct (String.eqb_spec tag "a") as [->|?];
      [|destruct (String.eqb_spec tag "img") as [->|?];
        [|destruct (String.eqb_spec tag "h1") as [->|?];
          [|destruct (String.eqb_spec tag "h2") as [->|?];
            [|destruct (String.eqb_spec tag "h3") as [->|?];
              [|destruct (String.eqb_spec tag "h4") as [->|?];
                [|destruct (String.eqb_spec tag "h5") as [->|?];
                  [|destruct (String.eqb_spec tag "h6") as [->|?]
]]]]]]]]].

Ltac visit_field :=
  intros [t tag attrs cs] d b;
  unfold visitNode, linkOf, imageOf, headingOf, isMetaNamed, isMetaKeyed,
    isElement, isHeadingElement, isHeadingTag;
  rewrite ?extractMetaTag_spec, ?extractLink_spec, ?extractImage_spec;
  unfold extractHeading, metaKey, metaName, metaProperty, metaContent;
  cbn [Type_ Data Attr Children];
  destruct (NodeType_eqb t ElementNode); cbn [andb];
  [tag_cases tag;
   cbn -[firstVal lastVal insert getTextContent resolveURL]|];
  repeat match goal with
    | |- context [(?s =? ?k)%string] =>
        let E := fresh "E" in
        destruct (String.eqb_spec s k) as [E|E];
        [try discriminate E; rewrite !E|];
        cbn -[firstVal lastVal insert getTextContent resolveURL]
    end;
  cbn -[firstVal lastVal insert getTextContent resolveURL];
  repeat match goal with
    | |- context [if nonempty ?s then _ else _] => destruct (nonempty s)
    end;
  cbn -[firstVal lastVal insert getTextContent resolveURL];
  rewrite ?app_nil_r; try reflexivity.

Lemma visitNode_Title :
  forall n d b,
    Title (visitNode n d b)
    = if isElement "title" n then getTextContent n else Title d.
Proof. visit_field. Qed.

Lemma visitNode_Links :
  forall n d b, Links (visitNode n d b) = Links d ++ linkOf b n.
Proof. visit_field. Qed.

Lemma visitNode_Images :
  forall n d b, Images (visitNode n d b) = Images d ++ imageOf b n.
Proof. visit_field. Qed.

Lemma visitNode_Headings :
  forall n d b, Headings (visitNode n d b) = Headings d ++ headingOf n.
Proof. visit_field. Qed.

Lemma visitNode_Description :
  forall n d b,
    Description (visitNode n d b)
    = if isMetaNamed "description" n then metaContent n
      else Description d.
Proof. visit_field. Qed.

Lemma visitNode_Keywords :
  forall n d b,
    Keywords (visitNode n d b)
    = if isMetaNamed "keywords" n then metaContent n else Keywords d.
Proof. visit_field. Qed.

Lemma visitNode_MetaTags :
  forall n d b,
    MetaTags (visitNode n d b)
    = if isElement "meta" n && nonempty (metaKey n)
      then <[metaKey n := metaContent n]> (MetaTags d)
      else MetaTags d.
Proof.
  intros [t tag attrs cs] d b.
  unfold visitNode, isElement, isHeadingTag. rewrite extractMetaTag_spec.
  unfold metaKey. cbn [Type_ Data].
  destruct (NodeType_eqb t ElementNode); cbn [andb]; [|reflexivity].
  tag_cases tag; cbn -[metaName metaProperty metaContent insert];
    try reflexivity;
    try (rewrite ?extractLink_spec, ?extractImage_spec;
         unfold extractHeading;
         repeat match goal with
           | |- context [if nonempty ?s then _ else _] =>
               destruct (nonempty s)
           end; reflexivity).
  destruct (nonempty (metaName _)) eqn:Hn; cbv iota.
  - rewrite Hn.
    destruct (_ =? "description")%string; [reflexivity|].
    destruct (_ =? "keywords")%string; reflexivity.
  - destruct (nonempty (metaProperty _)); reflexivity.
Qed.

Lemma visitNode_MetaTags_lookup (k : string) :
  k <> "" ->
  forall n d b,
    MetaTags (visitNode n d b) !! k
    = if isMetaKeyed k n then Some (metaContent n) else MetaTags d !! k.
Proof.
  intros Hk n d b. rewrite visitNode_MetaTags. unfold isMetaKeyed.
  destruct (isElement "meta" n); cbn [andb]; [|reflexivity].
  destruct (String.eqb_spec (metaKey n) k) as [E|E].
  - apply nonempty_true in Hk. rewrite E, Hk. apply lookup_insert_eq.
  - destruct (nonempty (metaKey n)); [|reflexivity].
    now apply lookup_insert_ne.
Qed.

(** [extractData] performs the per-node step on the nodes of the tree
    in pre-order. *)
Lemma extractData_walk (n : Node) :
  forall d b, extractData n d b = walk b (preorder n) d.
Proof.
  induction n as [t tag attrs cs IH] using Node_ind. intros d b.
  cbn [extractData preorder]. unfold walk. cbn [fold_left].
  generalize (visitNode (mkNode t tag attrs cs) d b) as d0.
  induction IH as [|c cs Hc _ IHcs]; intros d0; cbn [fold_left flat_map].
  - reflexivity.
  - rewrite fold_left_app, Hc. apply IHcs.
Qed.

Lemma walk_Title (b : string) (l : list Node) (d : ScrapedData) :
  Title (walk b l d)
  = from_option getTextContent (Title d)
                (last (List.filter (isElement "title") l)).
Proof.
  apply (fold_last_writer (fun d e => visitNode e d b) Title).
  intros s e. apply visitNode_Title.
Qed.

Lemma walk_Description (b : string) (l : list Node) (d : ScrapedData) :
  Description (walk b l d)
  = from_option metaContent (Description d)
                (last (List.filter (isMetaNamed "description") l)).
Proof.
  apply (fold_last_writer (fun d e => visitNode e d b) Description).
  intros s e. apply visitNode_Description.
Qed.

Lemma walk_Keywords (b : string) (l : list Node) (d : ScrapedData) :
  Keywords (walk b l d)
  = from_option metaContent (Keywords d)
                (last (List.filter (isMetaNamed "keywords") l)).
Proof.
  apply (fold_last_writer (fun d e => visitNode e d b) Keywords).
  intros s e. apply visitNode_Keywords.
Qed.

Lemma walk_MetaTags_lookup (k b : string) (l : list Node)
      (d : ScrapedData) :
  k <> "" ->
  MetaTags (walk b l d) !! k
  = from_option (fun e => Some (metaContent e)) (MetaTags d !! k)
                (last (List.filter (isMetaKeyed k) l)).
Proof.
  intros Hk.
  apply (fold_last_writer (fun d e => visitNode e d b)
                          (fun d => MetaTags d !! k)).
  intros s e. now apply visitNode_MetaTags_lookup.
Qed.

Lemma walk_Links (b : string) (l : list Node) (d : ScrapedData) :
  Links (walk b l d) = Links d ++ flat_map (linkOf b) l.
Proof.
  apply (fold_appender (fun d e => visitNode e d b) Links).
  intros s e. apply visitNode_Links.
Qed.

Lemma walk_Images (b : string) (l : list Node) (d : ScrapedData) :
  Images (walk b l d) = Images d ++ flat_map (imageOf b) l.
Proof.
  apply (fold_appender (fun d e => visitNode e d b) Images).
  intros s e. apply visitNode_Images.
Qed.

Lemma walk_Headings (b : string) (l : list Node) (d : ScrapedData) :
  Headings (walk b l d) = Headings d ++ flat_map headingOf l.
Proof.
  apply (fold_appender (fun d e => visitNode e d b) Headings).
  intros s e. apply visitNode_Headings.
Qed.

End Extractor.

(** ** The fetch and its failures *)

Lemma checkResponse_status (resp : Response) :
  StatusCode resp <> 200%Z ->
  checkResponse resp
  = Err (statusMessage (StatusCode resp) (detectAntiBotService resp)).
Proof.
  intros Hs. unfold checkResponse, statusMessage.
  apply Z.eqb_neq in Hs. rewrite Hs. cbn [negb].
  destruct (nonempty (detectAntiBotService resp)); reflexivity.
Qed.

Lemma checkResponse_content_type (resp : Response) :
  StatusCode resp = 200%Z ->
  strings_Contains (Header_Get (Header resp) "Content-Type") "text/html"
  = false ->
  checkResponse resp
  = Err ("content type is not HTML: "
         +:+ Header_Get (Header resp) "Content-Type").
Proof.
  intros Hs Hc. unfold checkResponse.
  apply Z.eqb_eq in Hs. rewrite Hs, Hc. reflexivity.
Qed.

Lemma checkResponse_Ok (resp : Response) (body : string) :
  checkResponse resp = Ok body <->
  StatusCode resp = 200%Z
  /\ strings_Contains (Header_Get (Header resp) "Content-Type") "text/html"
     = true
  /\ Body resp = Ok body.
Proof.
  unfold checkResponse.
  destruct (Z.eqb_spec (StatusCode resp) 200) as [Hs|Hs]; cbn [negb].
  - destruct (strings_Contains _ "text/html"); cbn [negb].
    + destruct (Body resp) as [b|e]; split.
      * intros [= ->]. auto.
      * intros (_ & _ & [= ->]). reflexivity.
      * discriminate.
      * intros (_ & _ & [=]).
    + split; [discriminate | intros (_ & [=] & _)].
  - split; [discriminate | intros (Hs' & _); contradiction].
Qed.

(** A 201 answer with an HTML body is refused. *)
Example checkResponse_201 :
  checkResponse (htmlResponse 201 "<html></html>")
  = Err "unexpected status code: 201".
Proof. reflexivity. Qed.

(** C1, as stated, fails: a response with a 2xx status other than 200,
    an HTML content type and a readable body does not yield the body. *)
Lemma C1_any_2xx_counterexample :
  ~ (forall (resp : Response) (body : string),
       (200 <= StatusCode resp < 300)%Z ->
       strings_Contains (Header_Get (Header resp) "Content-Type")
                        "text/html" = true ->
       Body resp = Ok body ->
       checkResponse resp = Ok body).
Proof.
  intros H.
  specialize (H (htmlResponse 201 "<html></html>") "<html></html>").
  rewrite checkResponse_201 in H.
  assert (Hc : @Err string "unexpected status code: 201"
               = Ok "<html></html>").
  { apply H; [cbn; lia | reflexivity | reflexivity]. }
  discriminate Hc.
Qed.

(** C1 (amended).  The fetch yields the body exactly when the status is
    200, the [Content-Type] contains [text/html] and the body is read
    without error.  Any other status yields the failure
    [unexpected status code: N], followed by [(detected: L)] when the
    classifier gives a label [L]; status 200 with another content type
    yields the failure [content type is not HTML: ...] citing the
    content type.  In both cases [scrapeWebPage] returns that failure
    whatever the parser and the resolver are (nothing is parsed or
    walked), and the handler reports it as [scrape_failed]. *)
Theorem C1_fetch_outcome :
  forall resp : Response,
    let contentType := Header_Get (Header resp) "Content-Type" in
    (forall body,
        checkResponse resp = Ok body <->
        StatusCode resp = 200%Z
        /\ strings_Contains contentType "text/html" = true
        /\ Body resp = Ok body)
    /\ (StatusCode resp <> 200%Z ->
        checkResponse resp
        = Err (statusMessage (StatusCode resp) (detectAntiBotService resp)))
    /\ (StatusCode resp = 200%Z ->
        strings_Contains contentType "text/html" = false ->
        checkResponse resp = Err ("content type is not HTML: " +:+ contentType))
    /\ (forall (P : Packages) (T : Transport) (targetURL : string)
               (req : Request) (e : string),
          http_NewRequestWithContext "GET" targetURL = Ok req ->
          client_Do (setBrowserHeaders req) = Ok resp ->
          checkResponse resp = Err e ->
          scrapeWebPage targetURL = Err e
          /\ (targetURL <> "" -> validateURL targetURL = None ->
              scrapeHandler "GET" targetURL
              = sendError 500 "scrape_failed"
                          ("Failed to scrape URL: " +:+ e))).
Proof.
  intros resp contentType. split; [|split; [|split]].
  - intros body. apply checkResponse_Ok.
  - apply checkResponse_status.
  - apply checkResponse_content_type.
  - intros P T targetURL req e Hreq Hdo Hchk. split.
    + unfold scrapeWebPage. rewrite Hreq, Hdo, Hchk. reflexivity.
    + intros Hne Hv. unfold scrapeHandler, scrapeWebPage.
      apply String.eqb_neq in Hne.
      rewrite Hne, Hv, Hreq, Hdo, Hchk. reflexivity.
Qed.

(** A 503 answer carrying [CF-Ray: abc] fails with the status and the
    Cloudflare label; a JSON answer fails on its content type. *)
Lemma C1_fetch_outcome_witness :
  let blocked := mkResponse 503 {[ "Cf-Ray" := ["abc"] ]} (Ok "blocked") in
  let json :=
    mkResponse 200 {[ "Content-Type" := ["application/json"] ]} (Ok "{}") in
  (StatusCode blocked <> 200%Z
   /\ checkResponse blocked
      = Err "unexpected status code: 503 (detected: Cloudflare)")
  /\ (StatusCode json = 200%Z
      /\ checkResponse json
         = Err "content type is not HTML: application/json")
  /\ @scrapeHandler simplePackages (cannedTransport (Ok blocked))
                    "GET" "http://ex.com/"
     = sendError 500 "scrape_failed"
         "Failed to scrape URL: unexpected status code: 503 (detected: Cloudflare)".
Proof.
  intros blocked json.
  assert (Hb : StatusCode blocked <> 200%Z) by (cbn; lia).
  assert (Hj : StatusCode json = 200%Z) by reflexivity.
  split; [|split].
  - split; [exact Hb|].
    exact (proj1 (proj2 (C1_fetch_outcome blocked)) Hb).
  - split; [exact Hj|].
    exact (proj1 (proj2 (proj2 (C1_fetch_outcome json))) Hj eq_refl).
  - refine (proj2 (proj2 (proj2 (proj2 (C1_fetch_outcome blocked)))
                     simplePackages (cannedTransport (Ok blocked))
                     "http://ex.com/" "http://ex.com/" _
                     eq_refl eq_refl eq_refl) _ eq_refl).
    discriminate.
Defined.

(** ** The classifier *)

Lemma firstMatch_first {H : Type} (rules : list ((H -> bool) * string))
      (h : H) (i : nat) (c : H -> bool) (label : string) :
  rules !! i = Some (c, label) ->
  c h = true ->
  (forall j c' l', (j < i)%nat -> rules !! j = Some (c', l') -> c' h = false) ->
  firstMatch rules h = label.
Proof.
  revert i. induction rules as [|[c0 l0] rules IH]; intros i Hi Hc Hbefore.
  - discriminate Hi.
  - destruct i as [|i]; cbn in Hi |- *.
    + injection Hi as -> ->. now rewrite Hc.
    + rewrite (Hbefore 0%nat c0 l0); [|lia|reflexivity].
      apply (IH i Hi Hc). intros j c' l' Hj Hl.
      apply (Hbefore (Datatypes.S j) c' l'); [lia|exact Hl].
Qed.

Lemma firstMatch_none {H : Type} (rules : list ((H -> bool) * string))
      (h : H) :
  (forall c label, In (c, label) rules -> c h = false) ->
  firstMatch rules h = "".
Proof.
  induction rules as [|[c0 l0] rules IH]; intros Hnone; cbn.
  - reflexivity.
  - rewrite (Hnone c0 l0); [|now left].
    apply IH. intros c label Hin. apply (Hnone c label). now right.
Qed.

Lemma detectAntiBotService_firstMatch (resp : Response) :
  detectAntiBotService resp = firstMatch antiBotRules (Header resp).
Proof. reflexivity. Qed.

(** A [CF-Ray] header that is there with an empty value is not taken
    for Cloudflare's. *)
Example detect_empty_CF_Ray :
  detectAntiBotService (mkResponse 503 {[ "Cf-Ray" := [""] ]} (Ok ""))
  = "".
Proof. reflexivity. Qed.

(** C5, as stated, fails: a response can carry a [CF-Ray] header and
    still get no label, namely when the header's value is empty. *)
Lemma C5_present_header_counterexample :
  ~ (forall resp : Response,
       is_Some (Header resp !! CanonicalMIMEHeaderKey "CF-Ray") ->
       detectAntiBotService resp = "Cloudflare").
Proof.
  intros H.
  specialize (H (mkResponse 503 {[ "Cf-Ray" := [""] ]} (Ok ""))).
  rewrite detect_empty_CF_Ray in H.
  assert (Hc : "" = "Cloudflare").
  { apply H. exists [""]. reflexivity. }
  discriminate Hc.
Qed.

(** C5 (amended).  The classifier depends on the response's headers
    only; it returns the label of the first of its seven rules, in the
    order Cloudflare, Akamai, AWS WAF, Imperva/Incapsula, DataDome,
    Sucuri, PerimeterX, whose condition holds, and the empty string (no
    label) when none holds, where a header counts as present when its
    first value is non-empty.  In particular a [Server] header equal to
    [cloudflare], or a [CF-Ray] header with a non-empty value, yields
    [Cloudflare], whatever the other headers are. *)
Theorem C5_classifier_first_match :
  forall resp : Response,
    let h := Header resp in
    (forall resp',
        Header resp' = h ->
        detectAntiBotService resp' = detectAntiBotService resp)
    /\ detectAntiBotService resp = firstMatch antiBotRules h
    /\ map snd antiBotRules
       = ["Cloudflare"; "Akamai"; "AWS WAF"; "Imperva/Incapsula";
          "DataDome"; "Sucuri"; "PerimeterX"]
    /\ (forall i c label,
          antiBotRules !! i = Some (c, label) ->
          c h = true ->
          (forall j c' l',
              (j < i)%nat -> antiBotRules !! j = Some (c', l') ->
              c' h = false) ->
          detectAntiBotService resp = label)
    /\ ((forall c label, In (c, label) antiBotRules -> c h = false) ->
        detectAntiBotService resp = "")
    /\ (Header_Get h "Server" = "cloudflare" ->
        detectAntiBotService resp = "Cloudflare")
    /\ (Header_Get h "CF-Ray" <> "" ->
        detectAntiBotService resp = "Cloudflare").
Proof.
  intros resp h. repeat apply conj.
  - intros resp' Hh. rewrite !detectAntiBotService_firstMatch.
    now rewrite Hh.
  - reflexivity.
  - reflexivity.
  - intros i c label Hi Hc Hbefore.
    rewrite detectAntiBotService_firstMatch.
    exact (firstMatch_first antiBotRules h i c label Hi Hc Hbefore).
  - intros Hnone. rewrite detectAntiBotService_firstMatch.
    now apply firstMatch_none.
  - intros Hs. unfold detectAntiBotService. fold h. now rewrite Hs.
  - intros Hr. unfold detectAntiBotService. fold h.
    apply nonempty_true in Hr. rewrite Hr.
    now rewrite orb_true_r.
Qed.

(** Headers that satisfy both the Cloudflare rule and the later AWS rule
    are classified as Cloudflare; headers satisfying only the Sucuri rule
    are classified as Sucuri. *)
Lemma C5_classifier_first_match_witness :
  let both :=
    mkResponse 403 {[ "Cf-Ray" := ["8a1b"]; "X-Amzn-Requestid" := ["r-1"] ]}
               (Ok "") in
  let sucuri := mkResponse 403 {[ "X-Sucuri-Id" := ["14001"] ]} (Ok "") in
  (Header_Get (Header both) "CF-Ray" <> ""
   /\ hasHeader (Header both) "X-Amzn-RequestId" = true
   /\ detectAntiBotService both = "Cloudflare")
  /\ detectAntiBotService sucuri = "Sucuri".
Proof.
  intros both sucuri. split.
  - assert (Hr : Header_Get (Header both) "CF-Ray" <> "") by discriminate.
    split; [exact Hr|]. split; [reflexivity|].
    exact (proj2 (proj2 (proj2 (proj2 (proj2 (proj2
             (C5_classifier_first_match both)))))) Hr).
  - refine (proj1 (proj2 (proj2 (proj2 (C5_classifier_first_match sucuri))))
              5%nat _ "Sucuri" eq_refl eq_refl _).
    intros j c' l' Hj Hl.
    do 5 (destruct j as [|j]; [injection Hl as <- _; reflexivity|]).
    lia.
Defined.

(** ** Validation *)

Section Validator.

Context {P : Packages}.

Lemma validateURL_accepts (s : string) :
  validateURL s = None <->
  exists u, url_Parse s = Some u
            /\ (URL_Scheme u = "http" \/ URL_Scheme u = "https").
Proof.
  unfold validateURL. destruct (url_Parse s) as [u|].
  - destruct (String.eqb_spec (URL_Scheme u) "http") as [Hh|Hh];
      [|destruct (String.eqb_spec (URL_Scheme u) "https") as [Hs|Hs]];
      cbn [negb andb]; split.
    + intros _. exists u. auto.
    + reflexivity.
    + intros _. exists u. auto.
    + reflexivity.
    + discriminate.
    + intros (u' & [= <-] & [H|H]); contradiction.
  - split; [discriminate|]. intros (u & [=] & _).
Qed.

Lemma validateURL_rejects (s : string) :
  validateURL s <> None -> validateURL s = Some invalidURL.
Proof.
  unfold validateURL, invalidURL. destruct (url_Parse s) as [u|].
  - destruct (negb _ && negb _); [reflexivity | congruence].
  - reflexivity.
Qed.

End Validator.

(** C6.  The validator lets a string through exactly when [url.Parse]
    succeeds on it and the parsed URL's scheme is [http] or [https];
    every other string gets the [invalid_url] response, and the handler
    sends that response whatever the transport is, so without any
    request being made. *)
Theorem C6_validator_accepts_http_https :
  forall (P : Packages) (s : string),
    (validateURL s = None <->
     exists u, url_Parse s = Some u
               /\ (URL_Scheme u = "http" \/ URL_Scheme u = "https"))
    /\ (validateURL s <> None ->
        validateURL s
        = Some (sendError 400 "invalid_url"
                          "URL must be a valid http or https URL"))
    /\ (forall T : Transport,
          s <> "" -> validateURL s <> None ->
          scrapeHandler "GET" s
          = sendError 400 "invalid_url"
                      "URL must be a valid http or https URL").
Proof.
  intros P s. split; [|split].
  - apply validateURL_accepts.
  - apply validateURL_rejects.
  - intros T Hne Hv. unfold scrapeHandler.
    apply String.eqb_neq in Hne. rewrite Hne.
    now rewrite (validateURL_rejects s Hv).
Qed.

(** An [ftp] URL and a string with a leading colon are refused, also
    over a transport that would answer; an [https] URL passes. *)
Lemma C6_validator_accepts_http_https_witness :
  let T := cannedTransport (Ok (htmlResponse 200 "<html></html>")) in
  ("ftp://ex.com/f" <> ""
   /\ @validateURL simplePackages "ftp://ex.com/f" <> None
   /\ @scrapeHandler simplePackages T "GET" "ftp://ex.com/f"
      = sendError 400 "invalid_url" "URL must be a valid http or https URL")
  /\ @validateURL simplePackages ":80"
     = Some (sendError 400 "invalid_url"
                       "URL must be a valid http or https URL")
  /\ @validateURL simplePackages "HTTPS://ex.com/" = None.
Proof.
  intros T.
  assert (Hne : "ftp://ex.com/f" <> "") by discriminate.
  assert (Hv : @validateURL simplePackages "ftp://ex.com/f" <> None)
    by discriminate.
  split; [|split].
  - split; [exact Hne|]. split; [exact Hv|].
    exact (proj2 (proj2 (C6_validator_accepts_http_https
                           simplePackages "ftp://ex.com/f")) T Hne Hv).
  - apply (proj1 (proj2 (C6_validator_accepts_http_https
                           simplePackages ":80"))).
    discriminate.
  - apply (proj1 (C6_validator_accepts_http_https
                    simplePackages "HTTPS://ex.com/")).
    exists (mkSimpleURL "https" "//ex.com/"). split; [reflexivity|].
    right. reflexivity.
Defined.

(** ** Resolution *)

Section Resolver.

Context {P : Packages}.

Lemma resolveURL_resolved (baseURL href : string) (base ref : url_URL) :
  url_Parse baseURL = Some base -> url_Parse href = Some ref ->
  resolveURL baseURL href = URL_String (URL_ResolveReference base ref).
Proof. intros Hb Hr. unfold resolveURL. now rewrite Hb, Hr. Qed.

Lemma resolveURL_verbatim (baseURL href : string) :
  url_Parse baseURL = None \/ url_Parse href = None ->
  resolveURL baseURL href = href.
Proof.
  intros [H|H]; unfold resolveURL.
  - now rewrite H.
  - rewrite H. now destruct (url_Parse baseURL).
Qed.

Lemma resolveURL_cases (baseURL href : string) :
  resolvedOrVerbatim baseURL href (resolveURL baseURL href).
Proof.
  unfold resolvedOrVerbatim.
  destruct (url_Parse baseURL) as [base|] eqn:Hb.
  - destruct (url_Parse href) as [ref|] eqn:Hr.
    + left. exists base, ref. repeat split.
      eapply resolveURL_resolved; eassumption.
    + right. split; [now right|]. apply resolveURL_verbatim. now right.
  - right. split; [now left|]. apply resolveURL_verbatim. now left.
Qed.

Lemma in_linkOf (b : string) (e : Node) (l : Link) :
  In l (linkOf b e) ->
  isElement "a" e = true
  /\ firstVal "href" (Attr e) <> ""
  /\ l = mkLink (resolveURL b (firstVal "href" (Attr e)))
                (strings_TrimSpace (getTextContent e)).
Proof.
  unfold linkOf.
  destruct (isElement "a" e); cbn [andb]; [|intros []].
  destruct (nonempty _) eqn:Hn; [|intros []].
  intros [<-|[]]. apply nonempty_true in Hn. auto.
Qed.

Lemma in_imageOf (b : string) (e : Node) (s : string) :
  In s (imageOf b e) ->
  isElement "img" e = true
  /\ firstVal "src" (Attr e) <> ""
  /\ s = resolveURL b (firstVal "src" (Attr e)).
Proof.
  unfold imageOf.
  destruct (isElement "img" e); cbn [andb]; [|intros []].
  destruct (nonempty _) eqn:Hn; [|intros []].
  intros [<-|[]]. apply nonempty_true in Hn. auto.
Qed.

End Resolver.

(** C2.  [resolveURL] returns the resolution of the reference against
    the base when both strings parse, and the reference string itself
    when either fails to parse.  Hence every link href and image source
    in the result comes from an [a] or [img] element of the tree and is
    either the resolved reference or the attribute's value as written;
    when the base has a scheme the resolved one is absolute
    ([ResolveReference] keeps a scheme).  Extraction is total:
    [scrapeWebPage] succeeds as soon as the response passes the checks
    and the markup parses, whatever [url.Parse] does on the references. *)
Theorem C2_resolution_degrades_gracefully :
  forall (P : Packages) (baseURL : string),
    (forall href base ref,
        url_Parse baseURL = Some base -> url_Parse href = Some ref ->
        resolveURL baseURL href
        = URL_String (URL_ResolveReference base ref))
    /\ (forall href,
          url_Parse baseURL = None \/ url_Parse href = None ->
          resolveURL baseURL href = href)
    /\ (forall (doc : Node) (targetURL : string),
          let data := extractData doc (newScrapedData targetURL) baseURL in
          (forall l, In l (Links data) ->
             exists e, In e (preorder doc) /\ isElement "a" e = true
               /\ resolvedOrVerbatim baseURL (firstVal "href" (Attr e))
                                     (Link_Href l))
          /\ (forall s, In s (Images data) ->
                exists e, In e (preorder doc) /\ isElement "img" e = true
                  /\ resolvedOrVerbatim baseURL (firstVal "src" (Attr e)) s))
    /\ (forall base href ref,
          url_Parse baseURL = Some base -> URL_Scheme base <> "" ->
          (forall b r, URL_Scheme b <> "" ->
                       URL_Scheme (URL_ResolveReference b r) <> "") ->
          url_Parse href = Some ref ->
          exists u, resolveURL baseURL href = URL_String u
                    /\ URL_Scheme u <> "")
    /\ (forall (T : Transport) req resp body doc,
          http_NewRequestWithContext "GET" baseURL = Ok req ->
          client_Do (setBrowserHeaders req) = Ok resp ->
          checkResponse resp = Ok body ->
          html_Parse body = Ok doc ->
          scrapeWebPage baseURL
          = Ok (extractData doc (newScrapedData baseURL) baseURL)).
Proof.
  intros P baseURL. split; [|split; [|split; [|split]]].
  - intros href base ref. apply resolveURL_resolved.
  - intros href. apply resolveURL_verbatim.
  - intros doc targetURL data. subst data. rewrite extractData_walk. split.
    + intros l. rewrite walk_Links. cbn [Links newScrapedData app].
      rewrite in_flat_map. intros (e & He & Hl).
      apply in_linkOf in Hl as (Ha & _ & ->).
      exists e. repeat split; try assumption. apply resolveURL_cases.
    + intros s. rewrite walk_Images. cbn [Images newScrapedData app].
      rewrite in_flat_map. intros (e & He & Hs).
      apply in_imageOf in Hs as (Ha & _ & ->).
      exists e. repeat split; try assumption. apply resolveURL_cases.
  - intros base href ref Hb Hscheme Hkeep Hr.
    exists (URL_ResolveReference base ref). split.
    + now apply resolveURL_resolved.
    + now apply Hkeep.
  - intros T req resp body doc Hreq Hdo Hchk Hparse.
    unfold scrapeWebPage. now rewrite Hreq, Hdo, Hchk, Hparse.
Qed.

(** On a page with one link that parses and one that does not (a
    leading colon), the first is stored resolved, and absolute, and the
    second as written, and the scrape succeeds. *)
Lemma C2_resolution_degrades_gracefully_witness :
  let page :=
    document [element "a" [attr "href" "https://ex.org/a"] [textNode "A"];
              element "a" [attr "href" ":b"] [textNode "B"]] in
  let P := packagesWithPage page in
  let T := cannedTransport (Ok (htmlResponse 200 "<a></a>")) in
  let base := mkSimpleURL "http" "//ex.com/" in
  let ref := mkSimpleURL "https" "//ex.org/a" in
  let data :=
    @extractData P page (newScrapedData "http://ex.com/") "http://ex.com/" in
  (@url_Parse P "http://ex.com/" = Some base
   /\ @url_Parse P "https://ex.org/a" = Some ref
   /\ @resolveURL P "http://ex.com/" "https://ex.org/a" = "https://ex.org/a")
  /\ (@url_Parse P ":b" = None
      /\ @resolveURL P "http://ex.com/" ":b" = ":b")
  /\ (In (mkLink ":b" "B") (Links data)
      /\ exists e, In e (preorder page) /\ isElement "a" e = true
           /\ @resolvedOrVerbatim P "http://ex.com/"
                 (firstVal "href" (Attr e)) ":b")
  /\ (@URL_Scheme P base <> ""
      /\ exists u, @resolveURL P "http://ex.com/" "https://ex.org/a"
                   = @URL_String P u
                   /\ @URL_Scheme P u <> "")
  /\ @scrapeWebPage P T "http://ex.com/" = Ok data
  /\ Links data = [mkLink "https://ex.org/a" "A"; mkLink ":b" "B"].
Proof.
  intros page P T base ref data.
  pose proof (C2_resolution_degrades_gracefully P "http://ex.com/")
    as (Hres & Hverb & Hstored & Habs & Hok).
  assert (Hin : In (mkLink ":b" "B") (Links data)) by (right; now left).
  assert (Hscheme : @URL_Scheme P base <> "") by discriminate.
  split; [|split; [|split; [|split; [|split]]]].
  - split; [reflexivity|]. split; [reflexivity|].
    exact (Hres "https://ex.org/a" base ref eq_refl eq_refl).
  - split; [reflexivity|]. apply Hverb. right. reflexivity.
  - split; [exact Hin|].
    exact (proj1 (Hstored page "http://ex.com/") (mkLink ":b" "B") Hin).
  - split; [exact Hscheme|].
    exact (Habs base "https://ex.org/a" ref eq_refl Hscheme
                simple_resolve_keeps_scheme eq_refl).
  - exact (Hok T "http://ex.com/" (htmlResponse 200 "<a></a>") "<a></a>"
               page eq_refl eq_refl eq_refl eq_refl).
  - reflexivity.
Defined.

(** ** Duplicate attribute keys *)

(** C3.  With duplicate keys in an attribute list, [extractLink] and
    [extractImage] take the value of the first [href] / [src] (what
    follows it in the list plays no part), while [extractMetaTag] reads
    the whole list and keeps the value of the last [name], [property]
    and [content]. *)
Theorem C3_first_href_src_last_meta :
  forall (P : Packages) (n : Node) (d : ScrapedData) (baseURL : string),
    extractLink n d baseURL
    = (if nonempty (firstVal "href" (Attr n)) then
         set_Links d
           (Links d ++ [mkLink (resolveURL baseURL (firstVal "href" (Attr n)))
                               (strings_TrimSpace (getTextContent n))])
       else d)
    /\ extractImage n d baseURL
       = (if nonempty (firstVal "src" (Attr n)) then
            set_Images d
              (Images d ++ [resolveURL baseURL (firstVal "src" (Attr n))])
          else d)
    /\ metaScan (Attr n)
       = mkMetaVars (lastVal "name" (Attr n)) (lastVal "property" (Attr n))
                    (lastVal "content" (Attr n))
    /\ (forall key pre a post,
          Key a = key -> Forall (fun x => Key x <> key) pre ->
          firstAttr key (pre ++ a :: post) = Val a)
    /\ (forall pre a post,
          Forall (fun x => Key x <> Key a) post ->
          Key a = "name" \/ Key a = "property" \/ Key a = "content" ->
          let v := metaScan (pre ++ a :: post) in
          (Key a = "name" -> mv_name v = Val a)
          /\ (Key a = "property" -> mv_property v = Val a)
          /\ (Key a = "content" -> mv_content v = Val a)).
Proof.
  intros P n d baseURL. split; [|split; [|split; [|split]]].
  - apply extractLink_spec.
  - apply extractImage_spec.
  - apply metaScan_lastVal.
  - intros key pre a post Ha Hpre. rewrite firstAttr_firstVal.
    now apply firstVal_split.
  - intros pre a post Hpost _ v. subst v. rewrite metaScan_lastVal.
    cbn [mv_name mv_property mv_content].
    repeat split; intros Hk; rewrite Hk in Hpost;
      now apply lastVal_split.
Qed.

(** Two [href]s on a link: the first is used.  Two [name]s and two
    [content]s on a meta element: the last of each is used. *)
Lemma C3_first_href_src_last_meta_witness :
  let first := attr "href" "/x" in
  let second := attr "href" "/y" in
  let n1 := attr "name" "author" in
  let n2 := attr "name" "description" in
  let c1 := attr "content" "A" in
  let c2 := attr "content" "B" in
  (Key first = "href"
   /\ firstAttr "href" ([attr "class" "k"] ++ first :: [second]) = "/x")
  /\ (Key n2 = "name"
      /\ mv_name (metaScan ([n1; c1] ++ n2 :: [c2])) = "description")
  /\ (Key c2 = "content"
      /\ mv_content (metaScan ([n1; c1; n2] ++ c2 :: [])) = "B").
Proof.
  intros first second n1 n2 c1 c2.
  pose (n := element "a" [] []).
  pose (d := newScrapedData "").
  pose proof (C3_first_href_src_last_meta simplePackages n d "")
    as (_ & _ & _ & Hfirst & Hlast).
  split; [|split].
  - split; [reflexivity|].
    apply (Hfirst "href" [attr "class" "k"] first [second] eq_refl).
    repeat constructor; discriminate.
  - split; [reflexivity|].
    apply (Hlast [n1; c1] n2 [c2]); [|now left|reflexivity].
    repeat constructor; discriminate.
  - split; [reflexivity|].
    apply (Hlast [n1; c1; n2] c2 []); [|now right; right|reflexivity].
    constructor.
Defined.

(** ** Title *)

Lemma append_nil_r (s : string) : s +:+ "" = s.
Proof.
  induction s as [|c s IH]; [reflexivity|].
  change (String c (s +:+ "") = String c s). now f_equal.
Qed.

Lemma append_assoc (a b c : string) : (a +:+ b) +:+ c = a +:+ (b +:+ c).
Proof.
  induction a as [|x a IH]; [reflexivity|].
  change (String x ((a +:+ b) +:+ c) = String x (a +:+ (b +:+ c))).
  now f_equal.
Qed.

Lemma fold_left_append (f : Node -> string) (cs : list Node) (acc : string) :
  fold_left (fun text c => text +:+ f c) cs acc
  = acc +:+ concatStrings (map f cs).
Proof.
  revert acc. induction cs as [|c cs IH]; intros acc; cbn.
  - now rewrite append_nil_r.
  - rewrite IH. apply append_assoc.
Qed.

(** The text of a node that is not a text node is the text of its
    children, joined in order. *)
Lemma getTextContent_children (t : NodeType) (tag : string)
      (attrs : list Attribute) (cs : list Node) :
  t <> TextNode ->
  getTextContent (mkNode t tag attrs cs)
  = concatStrings (map getTextContent cs).
Proof.
  intros Ht. cbn [getTextContent].
  destruct t; try contradiction; cbn [NodeType_eqb];
    apply (fold_left_append getTextContent cs "").
Qed.

(** C7.  After extraction the title is the text content of the last
    [title] element of the tree in pre-order, as [getTextContent] gives
    it (the text of the element's children joined in order, with no
    trimming); it is the empty string when the tree has no [title]
    element. *)
Theorem C7_title_is_last_title_text :
  forall (P : Packages) (doc : Node) (targetURL baseURL : string),
    let titles := List.filter (isElement "title") (preorder doc) in
    let data := extractData doc (newScrapedData targetURL) baseURL in
    (forall t, last titles = Some t ->
               Title data = getTextContent t
               /\ Title data = concatStrings (map getTextContent (Children t)))
    /\ (titles = [] -> Title data = "").
Proof.
  intros P doc targetURL baseURL titles data. subst data.
  rewrite extractData_walk, walk_Title. fold titles. split.
  - intros t Ht. rewrite Ht. cbn [from_option]. split; [reflexivity|].
    assert (Hin : In t titles).
    { apply last_Some in Ht as (l' & ->). apply in_or_app. right. now left. }
    apply filter_In in Hin as (_ & Hel).
    destruct t as [ty tag attrs cs]. unfold isElement in Hel.
    cbn [Type_ Data Children] in *.
    apply getTextContent_children. intros ->. discriminate Hel.
  - intros ->. reflexivity.
Qed.

(** A page with two titles, the second with inner markup and outer
    blanks: the second one's text is kept, blanks included.  A page
    with none has the empty title. *)
Lemma C7_title_is_last_title_text_witness :
  let t1 := element "title" [] [textNode "First"] in
  let t2 :=
    element "title" []
      [textNode " Se"; element "b" [] [textNode "co"]; textNode "nd "] in
  let doc := document [element "head" [] [t1; t2]] in
  let bare := document [element "body" [] [textNode "title"]] in
  (last (List.filter (isElement "title") (preorder doc)) = Some t2
   /\ Title (@extractData simplePackages doc
                          (newScrapedData "http://ex.com/") "http://ex.com/")
      = " Second ")
  /\ (List.filter (isElement "title") (preorder bare) = []
      /\ Title (@extractData simplePackages bare
                             (newScrapedData "http://ex.com/")
                             "http://ex.com/")
         = "").
Proof.
  intros t1 t2 doc bare. split.
  - split; [reflexivity|].
    exact (proj1 (proj1 (C7_title_is_last_title_text
                           simplePackages doc "http://ex.com/"
                           "http://ex.com/")
                        t2 eq_refl)).
  - split; [reflexivity|].
    exact (proj2 (C7_title_is_last_title_text
                    simplePackages bare "http://ex.com/" "http://ex.com/")
                 eq_refl).
Defined.

(** ** Links *)

Lemma firstVal_nonempty (key : string) (attrs : list Attribute) :
  firstVal key attrs <> "" <->
  exists a, head (List.filter (hasKey key) attrs) = Some a /\ Val a <> "".
Proof.
  unfold firstVal.
  destruct (head (List.filter (hasKey key) attrs)) as [a|]; cbn; split.
  - intros H. exists a. auto.
  - intros (a' & [= <-] & H). exact H.
  - congruence.
  - intros (a & [=] & _).
Qed.

(** C8.  [extractLink] appends a link exactly when the element's first
    [href] attribute exists and has a non-empty value; an element
    without that attribute leaves the result as it was, whatever its
    text.  Over a tree, the links of the result are those of the [a]
    elements with such an [href], in document order; each holds the
    resolution of that non-empty value and the trimmed text, on which
    there is no condition.  When the base URL has a scheme, the stored
    href is itself non-empty ([ResolveReference] keeps a scheme and
    [String] prints it). *)
Theorem C8_link_iff_nonempty_first_href :
  forall (P : Packages) (n : Node) (d : ScrapedData) (baseURL : string),
    let first := head (List.filter (hasKey "href") (Attr n)) in
    (forall a, first = Some a -> Val a <> "" ->
               extractLink n d baseURL
               = set_Links d
                   (Links d ++ [mkLink (resolveURL baseURL (Val a))
                                  (strings_TrimSpace (getTextContent n))]))
    /\ (first = None \/ (exists a, first = Some a /\ Val a = "") ->
        extractLink n d baseURL = d)
    /\ (Forall (fun a => Key a <> "href") (Attr n) ->
        extractLink n d baseURL = d)
    /\ (forall doc : Node,
          Links (extractData doc d baseURL)
          = Links d ++ flat_map (linkOf baseURL) (preorder doc))
    /\ (forall (doc : Node) (targetURL : string) (l : Link),
          In l (Links (extractData doc (newScrapedData targetURL) baseURL)) ->
          exists e a,
            In e (preorder doc) /\ isElement "a" e = true
            /\ head (List.filter (hasKey "href") (Attr e)) = Some a
            /\ Val a <> ""
            /\ l = mkLink (resolveURL baseURL (Val a))
                          (strings_TrimSpace (getTextContent e)))
    /\ ((forall base, url_Parse baseURL = Some base -> URL_Scheme base <> "") ->
        (forall b r, URL_Scheme b <> "" ->
                     URL_Scheme (URL_ResolveReference b r) <> "") ->
        (forall u, URL_Scheme u <> "" -> URL_String u <> "") ->
        forall (doc : Node) (targetURL : string) (l : Link),
          In l (Links (extractData doc (newScrapedData targetURL) baseURL)) ->
          Link_Href l <> "").
Proof.
  intros P n d baseURL first.
  assert (Hstored :
    forall (doc : Node) (targetURL : string) (l : Link),
      In l (Links (extractData doc (newScrapedData targetURL) baseURL)) ->
      exists e a,
        In e (preorder doc) /\ isElement "a" e = true
        /\ head (List.filter (hasKey "href") (Attr e)) = Some a
        /\ Val a <> ""
        /\ l = mkLink (resolveURL baseURL (Val a))
                      (strings_TrimSpace (getTextContent e))).
  { intros doc targetURL l. rewrite extractData_walk, walk_Links.
    cbn [Links newScrapedData app]. rewrite in_flat_map.
    intros (e & He & Hl). apply in_linkOf in Hl as (Ha & Hne & ->).
    pose proof Hne as Hne'.
    apply firstVal_nonempty in Hne' as (a & Hhead & Hval).
    exists e, a. repeat split; try assumption.
    unfold firstVal. rewrite Hhead. reflexivity. }
  split; [|split; [|split; [|split; [|split]]]].
  - intros a Ha Hval. rewrite extractLink_spec.
    unfold firstVal. fold first. rewrite Ha. cbn [from_option].
    apply nonempty_true in Hval. now rewrite Hval.
  - intros Hcase. rewrite extractLink_spec. unfold firstVal. fold first.
    destruct Hcase as [->|(a & -> & Hval)]; cbn [from_option].
    + reflexivity.
    + now rewrite Hval.
  - intros Hno. rewrite extractLink_spec. unfold firstVal.
    now rewrite (filter_none "href" (Attr n) Hno).
  - intros doc. rewrite extractData_walk. apply walk_Links.
  - exact Hstored.
  - intros Hbase Hkeep Hprint doc targetURL l Hin.
    destruct (Hstored doc targetURL l Hin) as (e & a & _ & _ & _ & Hval & ->).
    cbn [Link_Href].
    destruct (resolveURL_cases baseURL (Val a))
      as [(base & ref & Hb & _ & ->)|(_ & ->)].
    + apply Hprint, Hkeep, (Hbase base Hb).
    + exact Hval.
Qed.

(** An anchor with an [href] and no text is recorded with an empty
    text; an anchor with text and only a [data-href] is not recorded;
    an anchor whose first [href] is empty is not recorded either.  On a
    page holding the three, the one link stored has a non-empty href. *)
Lemma C8_link_iff_nonempty_first_href_witness :
  let bare := element "a" [attr "href" "https://ex.org/z"] [] in
  let nohref := element "a" [attr "data-href" "/z"] [textNode "t"] in
  let empty := element "a" [attr "href" ""; attr "href" "/y"] [textNode "t"] in
  let d := newScrapedData "http://ex.com/" in
  let doc := document [element "body" [] [bare; nohref; empty]] in
  let data := @extractData simplePackages doc d "http://ex.com/" in
  (head (List.filter (hasKey "href") (Attr bare))
   = Some (attr "href" "https://ex.org/z")
   /\ Links (@extractLink simplePackages bare d "http://ex.com/")
      = [mkLink "https://ex.org/z" ""])
  /\ (Forall (fun a => Key a <> "href") (Attr nohref)
      /\ @extractLink simplePackages nohref d "http://ex.com/" = d)
  /\ (head (List.filter (hasKey "href") (Attr empty)) = Some (attr "href" "")
      /\ @extractLink simplePackages empty d "http://ex.com/" = d)
  /\ (Links data = [mkLink "https://ex.org/z" ""]
      /\ forall l, In l (Links data) -> Link_Href l <> "").
Proof.
  intros bare nohref empty d doc data.
  pose proof (C8_link_iff_nonempty_first_href
                simplePackages bare d "http://ex.com/")
    as (Happ & _ & _ & _ & _ & Hne).
  split; [|split; [|split]].
  - split; [reflexivity|].
    rewrite (Happ (attr "href" "https://ex.org/z") eq_refl);
      [reflexivity | discriminate].
  - assert (Hno : Forall (fun a => Key a <> "href") (Attr nohref))
      by (repeat constructor; discriminate).
    split; [exact Hno|].
    exact (proj1 (proj2 (proj2 (C8_link_iff_nonempty_first_href
                                  simplePackages nohref d "http://ex.com/")))
                 Hno).
  - split; [reflexivity|].
    apply (proj1 (proj2 (C8_link_iff_nonempty_first_href
                           simplePackages empty d "http://ex.com/"))).
    right. exists (attr "href" ""). split; reflexivity.
  - split; [reflexivity|].
    intros l Hl. apply (Hne) with (doc := doc) (targetURL := "http://ex.com/").
    + intros base [= <-]. discriminate.
    + exact simple_resolve_keeps_scheme.
    + exact simple_String_nonempty.
    + exact Hl.
Defined.

(** ** Headings *)

Lemma isHeadingTag_level (tag : string) :
  isHeadingTag tag = true ->
  (1 <= headingLevel tag <= 6)%Z /\ tag = "h" +:+ itoa (headingLevel tag).
Proof.
  unfold isHeadingTag, headingLevel.
  destruct (String.eqb_spec tag "h1") as [->|_];
    [intros _; split; [lia | reflexivity]|].
  destruct (String.eqb_spec tag "h2") as [->|_];
    [intros _; split; [lia | reflexivity]|].
  destruct (String.eqb_spec tag "h3") as [->|_];
    [intros _; split; [lia | reflexivity]|].
  destruct (String.eqb_spec tag "h4") as [->|_];
    [intros _; split; [lia | reflexivity]|].
  destruct (String.eqb_spec tag "h5") as [->|_];
    [intros _; split; [lia | reflexivity]|].
  destruct (String.eqb_spec tag "h6") as [->|_];
    [intros _; split; [lia | reflexivity]|].
  intros H. discriminate H.
Qed.

(** C9.  For an element [h1] ... [h6], [extractHeading] appends a
    heading exactly when the trimmed text content is non-empty; its
    level is the digit of the tag and its text the trimmed text.  Over a
    tree, the headings of the result are those of the heading elements
    with non-empty trimmed text, in document order. *)
Theorem C9_heading_iff_nonempty_trimmed_text :
  forall (P : Packages) (n : Node) (d : ScrapedData),
    isHeadingTag (Data n) = true ->
    let text := strings_TrimSpace (getTextContent n) in
    let level := headingLevel (Data n) in
    ((1 <= level <= 6)%Z /\ Data n = "h" +:+ itoa level)
    /\ (text <> "" ->
        extractHeading n d
        = set_Headings d (Headings d ++ [mkHeading level text]))
    /\ (text = "" -> extractHeading n d = d)
    /\ (forall (doc : Node) (baseURL : string),
          Headings (extractData doc d baseURL)
          = Headings d ++ flat_map headingOf (preorder doc))
    /\ (Type_ n = ElementNode ->
        headingOf n = if nonempty text
                      then [mkHeading (headingLevel (Data n)) text] else []).
Proof.
  intros P n d Htag text level. split; [|split; [|split; [|split]]].
  - now apply isHeadingTag_level.
  - intros Hne. unfold extractHeading. fold text.
    apply nonempty_true in Hne. now rewrite Hne.
  - intros He. unfold extractHeading. fold text. now rewrite He.
  - intros doc baseURL. rewrite extractData_walk. apply walk_Headings.
  - intros Hty. unfold headingOf, isHeadingElement. fold text.
    unfold isHeadingTag in Htag. now rewrite Hty, Htag.
Qed.

(** [<h3>Hi</h3>] gives the heading of level 3 and text [Hi];
    [<h2>  </h2>] gives none. *)
Lemma C9_heading_iff_nonempty_trimmed_text_witness :
  let h3 := element "h3" [] [textNode "Hi"] in
  let h2 := element "h2" [] [textNode "  "] in
  let d := newScrapedData "http://ex.com/" in
  let doc := document [element "body" [] [h2; h3]] in
  (isHeadingTag (Data h3) = true
   /\ @strings_TrimSpace simplePackages (getTextContent h3) <> ""
   /\ Headings (@extractHeading simplePackages h3 d) = [mkHeading 3 "Hi"])
  /\ (isHeadingTag (Data h2) = true
      /\ @strings_TrimSpace simplePackages (getTextContent h2) = ""
      /\ @extractHeading simplePackages h2 d = d)
  /\ (Type_ h2 = ElementNode /\ @headingOf simplePackages h2 = [])
  /\ Headings (@extractData simplePackages doc d "http://ex.com/")
     = [mkHeading 3 "Hi"].
Proof.
  intros h3 h2 d doc.
  pose proof (C9_heading_iff_nonempty_trimmed_text simplePackages h3 d eq_refl)
    as (_ & Happ & _ & Htree & _).
  pose proof (C9_heading_iff_nonempty_trimmed_text simplePackages h2 d eq_refl)
    as (_ & _ & Hskip & _ & Hof).
  split; [|split; [|split]].
  - split; [reflexivity|]. split; [discriminate|].
    rewrite Happ; [reflexivity | discriminate].
  - split; [reflexivity|]. split; [reflexivity|].
    exact (Hskip eq_refl).
  - split; [reflexivity|]. rewrite (Hof eq_refl). reflexivity.
  - rewrite (Htree doc "http://ex.com/"). reflexivity.
Defined.

(** ** Meta tags *)

Lemma extractMetaTag_named (n : Node) (d : ScrapedData) :
  metaName n <> "" ->
  MetaTags (extractMetaTag n d)
  = <[metaName n := metaContent n]> (MetaTags d)
  /\ Description (extractMetaTag n d)
     = (if (metaName n =? "description")%string then metaContent n
        else Description d)
  /\ Keywords (extractMetaTag n d)
     = (if (metaName n =? "keywords")%string then metaContent n
        else Keywords d).
Proof.
  intros Hn. rewrite extractMetaTag_spec.
  apply nonempty_true in Hn. rewrite Hn. cbv zeta.
  destruct (String.eqb_spec (metaName n) "description") as [E|E].
  - rewrite E. cbn. auto.
  - destruct (metaName n =? "keywords")%string; cbn; auto.
Qed.

Lemma extractMetaTag_property (n : Node) (d : ScrapedData) :
  metaName n = "" -> metaProperty n <> "" ->
  MetaTags (extractMetaTag n d)
  = <[metaProperty n := metaContent n]> (MetaTags d)
  /\ Description (extractMetaTag n d) = Description d
  /\ Keywords (extractMetaTag n d) = Keywords d.
Proof.
  intros Hn Hp. rewrite extractMetaTag_spec.
  apply nonempty_true in Hp. rewrite Hn, Hp. cbn. auto.
Qed.

(** Two descriptions by name, then one filed by property under the same
    key: the map entry comes from the third, the field from the second. *)
Example meta_property_overwrites_entry :
  let doc :=
    document
      [element "meta" [attr "name" "description"; attr "content" "A"] [];
       element "meta" [attr "name" "description"; attr "content" "B"] [];
       element "meta" [attr "property" "description"; attr "content" "C"] []]
  in
  let data := @extractData simplePackages doc (newScrapedData "u") "u" in
  MetaTags data !! "description" = Some "C" /\ Description data = "B".
Proof. split; reflexivity. Qed.

(** C4, as stated, fails in its last sentence: the last meta element
    with a given name does not always determine the map entry. *)
Lemma C4_last_name_counterexample :
  ~ (forall (P : Packages) (doc m : Node) (baseURL k : string),
       k <> "" ->
       last (List.filter (isMetaNamed k) (preorder doc)) = Some m ->
       MetaTags (extractData doc (newScrapedData baseURL) baseURL) !! k
       = Some (metaContent m)).
Proof.
  intros H.
  pose (m := element "meta"
               [attr "name" "description"; attr "content" "B"] []).
  pose (doc :=
    document
      [element "meta" [attr "name" "description"; attr "content" "A"] [];
       m;
       element "meta" [attr "property" "description"; attr "content" "C"] []]).
  specialize (H simplePackages doc m "u" "description").
  assert (Hc : @Some string "C" = Some "B").
  { rewrite <- (proj1 meta_property_overwrites_entry).
    apply H; [discriminate | reflexivity]. }
  discriminate Hc.
Qed.

(** C4 (amended).  For a [meta] element with a non-empty name,
    [metaTags[name] = content] is stored and the description or keywords
    field is set exactly when the name is [description] or [keywords];
    with an empty name and a non-empty property,
    [metaTags[property] = content] is stored and neither field changes.
    Over a tree, the description and keywords fields come from the last
    meta element in document order with that name, and the map entry of
    a key comes from the last meta element filed under that key, by name
    or, its name being empty, by property. *)
Theorem C4_meta_by_name_else_property :
  forall (P : Packages) (n : Node) (d : ScrapedData),
    (metaName n <> "" ->
     MetaTags (extractMetaTag n d)
     = <[metaName n := metaContent n]> (MetaTags d)
     /\ Description (extractMetaTag n d)
        = (if (metaName n =? "description")%string then metaContent n
           else Description d)
     /\ Keywords (extractMetaTag n d)
        = (if (metaName n =? "keywords")%string then metaContent n
           else Keywords d))
    /\ (metaName n = "" -> metaProperty n <> "" ->
        MetaTags (extractMetaTag n d)
        = <[metaProperty n := metaContent n]> (MetaTags d)
        /\ Description (extractMetaTag n d) = Description d
        /\ Keywords (extractMetaTag n d) = Keywords d)
    /\ (forall (doc : Node) (baseURL : string),
          let data := extractData doc d baseURL in
          Description data
          = from_option metaContent (Description d)
              (last (List.filter (isMetaNamed "description") (preorder doc)))
          /\ Keywords data
             = from_option metaContent (Keywords d)
                 (last (List.filter (isMetaNamed "keywords") (preorder doc)))
          /\ (forall k, k <> "" ->
                MetaTags data !! k
                = from_option (fun e => Some (metaContent e))
                    (MetaTags d !! k)
                    (last (List.filter (isMetaKeyed k) (preorder doc))))).
Proof.
  intros P n d. split; [|split].
  - apply extractMetaTag_named.
  - apply extractMetaTag_property.
  - intros doc baseURL data. subst data. rewrite extractData_walk.
    split; [|split].
    + apply walk_Description.
    + apply walk_Keywords.
    + intros k Hk. now apply walk_MetaTags_lookup.
Qed.

(** [<meta name="description" content="A">] followed by
    [<meta name="description" content="B">]: the entry and the field
    are both [B].  A meta element filed by property leaves the
    description alone. *)
Lemma C4_meta_by_name_else_property_witness :
  let m1 := element "meta" [attr "name" "description"; attr "content" "A"] [] in
  let m2 := element "meta" [attr "name" "description"; attr "content" "B"] [] in
  let og :=
    element "meta" [attr "property" "og:description"; attr "content" "C"] [] in
  let doc := document [element "head" [] [m1; m2; og]] in
  let d := newScrapedData "u" in
  let data := @extractData simplePackages doc d "u" in
  (metaName m2 <> ""
   /\ MetaTags (extractMetaTag m2 d) !! "description" = Some "B"
   /\ Description (extractMetaTag m2 d) = "B")
  /\ (metaName og = "" /\ metaProperty og <> ""
      /\ MetaTags (extractMetaTag og d) !! "og:description" = Some "C"
      /\ Description (extractMetaTag og d) = "")
  /\ ("description" <> ""
      /\ MetaTags data !! "description" = Some "B"
      /\ Description data = "B").
Proof.
  intros m1 m2 og doc d data.
  pose proof (C4_meta_by_name_else_property simplePackages m2 d)
    as (Hnamed & _ & Htree).
  pose proof (C4_meta_by_name_else_property simplePackages og d)
    as (_ & Hprop & _).
  assert (Hn : metaName m2 <> "") by discriminate.
  assert (Hp : metaProperty og <> "") by discriminate.
  assert (Hk : "description" <> "") by discriminate.
  destruct (Hnamed Hn) as (Hm & Hd & _).
  destruct (Hprop eq_refl Hp) as (Hm' & Hd' & _).
  destruct (Htree doc "u") as (Hdesc & _ & Hmap).
  split; [|split].
  - split; [exact Hn|]. split.
    + rewrite Hm. reflexivity.
    + rewrite Hd. reflexivity.
  - split; [reflexivity|]. split; [exact Hp|]. split.
    + rewrite Hm'. reflexivity.
    + rewrite Hd'. reflexivity.
  - split; [exact Hk|]. split.
    + subst data. rewrite (Hmap "description" Hk). reflexivity.
    + subst data. rewrite Hdesc. reflexivity.
Defined.

(** C10.  A [meta] element with a non-empty name and no [content]
    attribute stores the empty string under its name, and sets the
    description or keywords field to the empty string when the name is
    [description] or [keywords], whatever the field held before; so over
    a tree, when the last meta element named [description] (or
    [keywords]) has no [content] attribute, the field ends up empty even
    if earlier elements gave it a value. *)
Theorem C10_meta_without_content_stores_empty :
  forall (P : Packages) (n : Node) (d : ScrapedData),
    metaName n <> "" ->
    Forall (fun a => Key a <> "content") (Attr n) ->
    MetaTags (extractMetaTag n d) !! metaName n = Some ""
    /\ (metaName n = "description" -> Description (extractMetaTag n d) = "")
    /\ (metaName n = "keywords" -> Keywords (extractMetaTag n d) = "")
    /\ (forall (doc : Node) (baseURL : string),
          (last (List.filter (isMetaNamed "description") (preorder doc))
           = Some n ->
           Description (extractData doc d baseURL) = "")
          /\ (last (List.filter (isMetaNamed "keywords") (preorder doc))
              = Some n ->
              Keywords (extractData doc d baseURL) = "")
          /\ (last (List.filter (isMetaKeyed (metaName n)) (preorder doc))
              = Some n ->
              MetaTags (extractData doc d baseURL) !! metaName n = Some "")).
Proof.
  intros P n d Hn Hno.
  assert (Hc : metaContent n = "") by now apply lastVal_absent.
  destruct (extractMetaTag_named n d Hn) as (Hm & Hd & Hk).
  split; [|split; [|split]].
  - rewrite Hm, Hc. apply lookup_insert_eq.
  - intros E. rewrite Hd, E, Hc. reflexivity.
  - intros E. rewrite Hk, E, Hc. reflexivity.
  - intros doc baseURL. rewrite extractData_walk. split; [|split].
    + intros Hl. rewrite walk_Description, Hl. exact Hc.
    + intros Hl. rewrite walk_Keywords, Hl. exact Hc.
    + intros Hl. rewrite (walk_MetaTags_lookup _ _ _ _ Hn), Hl.
      cbn [from_option]. now rewrite Hc.
Qed.

(** A description with content followed by one without: the field and
    the entry end up empty. *)
Lemma C10_meta_without_content_stores_empty_witness :
  let full :=
    element "meta" [attr "name" "description"; attr "content" "A"] [] in
  let bare := element "meta" [attr "name" "description"] [] in
  let doc := document [element "head" [] [full; bare]] in
  let d := newScrapedData "u" in
  let captured := @visitNode simplePackages full d "u" in
  (metaName bare <> "" /\ Forall (fun a => Key a <> "content") (Attr bare))
  /\ (Description captured = "A"
      /\ Description (extractMetaTag bare captured) = ""
      /\ MetaTags (extractMetaTag bare captured) !! "description" = Some "")
  /\ Description (@extractData simplePackages doc d "u") = ""
  /\ MetaTags (@extractData simplePackages doc d "u") !! "description"
     = Some "".
Proof.
  intros full bare doc d captured.
  assert (Hn : metaName bare <> "") by discriminate.
  assert (Hno : Forall (fun a => Key a <> "content") (Attr bare))
    by (repeat constructor; discriminate).
  pose proof (C10_meta_without_content_stores_empty
                simplePackages bare captured Hn Hno)
    as (Hentry & Hfield & _ & _).
  pose proof (C10_meta_without_content_stores_empty
                simplePackages bare d Hn Hno) as (_ & _ & _ & Htree).
  destruct (Htree doc "u") as (Hdesc & _ & Hmap).
  split; [split; assumption|]. split; [|split].
  - split; [reflexivity|]. split; [exact (Hfield eq_refl) | exact Hentry].
  - apply Hdesc. reflexivity.
  - apply Hmap. reflexivity.
Defined.

(** * Further properties of the program *)

(** ** The handler *)

Section Handler.

Context {P : Packages} {T : Transport}.

Lemma scrapeHandler_not_GET (Method targetURL : string) :
  Method <> "GET" ->
  scrapeHandler Method targetURL
  = sendError 405 "method_not_allowed" "Only GET method is allowed".
Proof.
  intros Hm. unfold scrapeHandler.
  apply String.eqb_neq in Hm. now rewrite Hm.
Qed.

Lemma scrapeHandler_GET (targetURL : string) :
  targetURL <> "" ->
  scrapeHandler "GET" targetURL
  = match validateURL targetURL with
    | Some r => r
    | None =>
        match scrapeWebPage targetURL with
        | Err err =>
            sendError 500 "scrape_failed" ("Failed to scrape URL: " +:+ err)
        | Ok data => RespondData 200 data
        end
    end.
Proof.
  intros Hu. unfold scrapeHandler.
  apply String.eqb_neq in Hu. now rewrite Hu.
Qed.

Lemma scrapeHandler_data (Method targetURL : string) (code : Z)
      (data : ScrapedData) :
  scrapeHandler Method targetURL = RespondData code data <->
  code = 200%Z /\ Method = "GET" /\ targetURL <> ""
  /\ validateURL targetURL = None /\ scrapeWebPage targetURL = Ok data.
Proof.
  split.
  - unfold scrapeHandler.
    destruct (String.eqb_spec Method "GET") as [->|Hm]; cbn [negb];
      [|discriminate].
    destruct (String.eqb_spec targetURL "") as [->|Hu]; [discriminate|].
    destruct (validateURL targetURL) as [r|] eqn:Hv.
    + intros ->. apply (f_equal Some) in Hv.
      rewrite (validateURL_rejects targetURL) in Hv by congruence.
      discriminate Hv.
    + destruct (scrapeWebPage targetURL) as [d|e]; [|discriminate].
      intros [= <- <-]. auto.
  - intros (-> & -> & Hu & Hv & Hs).
    rewrite (scrapeHandler_GET targetURL Hu), Hv, Hs. reflexivity.
Qed.

End Handler.

(** X1.  The handler's checks come in a fixed order: a method other
    than GET is refused with 405 [method_not_allowed] whatever the [url]
    parameter is, and a GET without the parameter is refused with 400
    [missing_url], both before any parsing or request.  Every error the
    handler sends carries one of the four tokens with its own status
    code. *)
Theorem X1_handler_checks_in_order :
  forall (P : Packages) (T : Transport) (Method targetURL : string),
    (Method <> "GET" ->
     scrapeHandler Method targetURL
     = sendError 405 "method_not_allowed" "Only GET method is allowed")
    /\ (Method = "GET" -> targetURL = "" ->
        scrapeHandler Method targetURL
        = sendError 400 "missing_url" "URL parameter is required")
    /\ (forall code e,
          scrapeHandler Method targetURL = RespondError code e ->
          In (Error e, code) errorStatus).
Proof.
  intros P T Method targetURL. split; [|split].
  - apply scrapeHandler_not_GET.
  - intros -> ->. reflexivity.
  - intros code e. unfold scrapeHandler, errorStatus.
    destruct (negb (Method =? "GET")%string).
    { intros [= <- <-]. cbn. auto. }
    destruct (targetURL =? "")%string.
    { intros [= <- <-]. cbn. auto. }
    destruct (validateURL targetURL) as [r|] eqn:Hv.
    { intros ->. apply (f_equal Some) in Hv.
      rewrite (validateURL_rejects targetURL) in Hv by congruence.
      injection Hv as <- <-. cbn. auto. }
    destruct (scrapeWebPage targetURL) as [d|err]; [discriminate|].
    intros [= <- <-]. cbn. auto 6.
Qed.

(** A POST is refused as such even with no URL and over a transport
    that would answer; a GET without URL is refused as such. *)
Lemma X1_handler_checks_in_order_witness :
  let T := cannedTransport (Ok (htmlResponse 200 "<html></html>")) in
  ("POST" <> "GET"
   /\ @scrapeHandler simplePackages T "POST" ""
      = sendError 405 "method_not_allowed" "Only GET method is allowed")
  /\ @scrapeHandler simplePackages T "GET" ""
     = sendError 400 "missing_url" "URL parameter is required"
  /\ (@scrapeHandler simplePackages T "GET" "mailto:a@b"
      = RespondError 400 (mkErrorResponse "invalid_url"
                            "URL must be a valid http or https URL")
      /\ In ("invalid_url", 400%Z) errorStatus).
Proof.
  intros T.
  assert (Hm : "POST" <> "GET") by discriminate.
  split; [|split].
  - split; [exact Hm|].
    exact (proj1 (X1_handler_checks_in_order simplePackages T "POST" "") Hm).
  - exact (proj1 (proj2 (X1_handler_checks_in_order simplePackages T "GET" ""))
                 eq_refl eq_refl).
  - split; [reflexivity|].
    exact (proj2 (proj2 (X1_handler_checks_in_order
                           simplePackages T "GET" "mailto:a@b"))
                 400%Z
                 (mkErrorResponse "invalid_url"
                    "URL must be a valid http or https URL")
                 eq_refl).
Defined.

(** ** The pipeline *)

(** X2.  [scrapeWebPage] succeeds exactly when every stage does: the
    request is created, the client answers, the status is 200, the
    content type contains [text/html], the body is read and the markup
    parses; the result is then the extraction over the parsed tree from
    the empty record, with the target URL as base. *)
Theorem X2_scrape_succeeds_iff_all_stages :
  forall (P : Packages) (T : Transport) (targetURL : string)
         (data : ScrapedData),
    scrapeWebPage targetURL = Ok data <->
    exists req resp body doc,
      http_NewRequestWithContext "GET" targetURL = Ok req
      /\ client_Do (setBrowserHeaders req) = Ok resp
      /\ StatusCode resp = 200%Z
      /\ strings_Contains (Header_Get (Header resp) "Content-Type")
                          "text/html" = true
      /\ Body resp = Ok body
      /\ html_Parse body = Ok doc
      /\ data = extractData doc (newScrapedData targetURL) targetURL.
Proof.
  intros P T targetURL data. unfold scrapeWebPage. split.
  - destruct (http_NewRequestWithContext "GET" targetURL) as [req|e]
      eqn:Hreq; [|discriminate].
    destruct (client_Do (setBrowserHeaders req)) as [resp|e] eqn:Hdo;
      [|discriminate].
    destruct (checkResponse resp) as [body|e] eqn:Hchk; [|discriminate].
    destruct (html_Parse body) as [doc|e] eqn:Hp; [|discriminate].
    intros [= <-]. apply checkResponse_Ok in Hchk as (Hs & Hc & Hb).
    exists req, resp, body, doc. repeat split; assumption.
  - intros (req & resp & body & doc & Hreq & Hdo & Hs & Hc & Hb & Hp & ->).
    rewrite Hreq, Hdo.
    rewrite (proj2 (checkResponse_Ok resp body)) by auto.
    now rewrite Hp.
Qed.

Lemma X2_scrape_succeeds_iff_all_stages_witness :
  let page := document [element "title" [] [textNode "T"]] in
  let P := packagesWithPage page in
  let T := cannedTransport (Ok (htmlResponse 200 "<title>T</title>")) in
  exists data,
    @scrapeWebPage P T "http://ex.com/" = Ok data /\ Title data = "T".
Proof.
  intros page P T.
  exists (@extractData P page (newScrapedData "http://ex.com/")
                       "http://ex.com/").
  split; [|reflexivity].
  apply (proj2 (X2_scrape_succeeds_iff_all_stages P T "http://ex.com/" _)).
  exists "http://ex.com/", (htmlResponse 200 "<title>T</title>"),
    "<title>T</title>", page.
  repeat split; reflexivity.
Defined.

(** X3.  A failure of [scrapeWebPage] is one of six: the request could
    not be created, the client failed (time-out included), the status
    was not 200, the content type was not HTML, the body could not be
    read, or the markup did not parse; the message tells which, and
    wraps the underlying error where there is one. *)
Theorem X3_scrape_failure_is_one_of_six :
  forall (P : Packages) (T : Transport) (targetURL msg : string),
    scrapeWebPage targetURL = Err msg ->
    (exists e, http_NewRequestWithContext "GET" targetURL = Err e
               /\ msg = "failed to create request: " +:+ e)
    \/ exists req, http_NewRequestWithContext "GET" targetURL = Ok req /\
       ((exists e, client_Do (setBrowserHeaders req) = Err e
                   /\ msg = "failed to fetch URL: " +:+ e)
        \/ exists resp, client_Do (setBrowserHeaders req) = Ok resp /\
           let contentType := Header_Get (Header resp) "Content-Type" in
           ((StatusCode resp <> 200%Z
             /\ msg = statusMessage (StatusCode resp)
                                    (detectAntiBotService resp))
            \/ (StatusCode resp = 200%Z
                /\ strings_Contains contentType "text/html" = false
                /\ msg = "content type is not HTML: " +:+ contentType)
            \/ (exists e, StatusCode resp = 200%Z
                          /\ strings_Contains contentType "text/html" = true
                          /\ Body resp = Err e
                          /\ msg = "failed to read response body: " +:+ e)
            \/ (exists body e, checkResponse resp = Ok body
                               /\ html_Parse body = Err e
                               /\ msg = "failed to parse HTML: " +:+ e))).
Proof.
  intros P T targetURL msg. unfold scrapeWebPage. intros H.
  destruct (http_NewRequestWithContext "GET" targetURL) as [req|e] eqn:Hreq.
  2: { injection H as <-. left. exists e. auto. }
  right. exists req. split; [reflexivity|].
  destruct (client_Do (setBrowserHeaders req)) as [resp|e] eqn:Hdo.
  2: { injection H as <-. left. exists e. auto. }
  right. exists resp. split; [reflexivity|]. cbv zeta.
  destruct (checkResponse resp) as [body|e] eqn:Hchk.
  - destruct (html_Parse body) as [doc|e] eqn:Hp; [discriminate|].
    injection H as <-. right. right. right. exists body, e. auto.
  - injection H as <-.
    destruct (Z.eq_dec (StatusCode resp) 200%Z) as [Hs|Hs].
    + destruct (strings_Contains (Header_Get (Header resp) "Content-Type")
                                 "text/html") eqn:Hc.
      * right. right. left. unfold checkResponse in Hchk.
        apply Z.eqb_eq in Hs as Hs'. rewrite Hs', Hc in Hchk.
        cbn [negb] in Hchk.
        destruct (Body resp) as [b|e']; [discriminate|].
        injection Hchk as <-. exists e'. auto.
      * right. left.
        rewrite (checkResponse_content_type resp Hs Hc) in Hchk.
        injection Hchk as <-. auto.
    + left. rewrite (checkResponse_status resp Hs) in Hchk.
      injection Hchk as <-. auto.
Qed.

(** A refused connection: the failure is the client's, with its
    message wrapped. *)
Lemma X3_scrape_failure_is_one_of_six_witness :
  let refused := cannedTransport (Err "dial tcp: connection refused") in
  let msg := "failed to fetch URL: dial tcp: connection refused" in
  @scrapeWebPage simplePackages refused "http://ex.com/" = Err msg
  /\ exists e, @client_Do refused "http://ex.com/" = Err e
               /\ msg = "failed to fetch URL: " +:+ e.
Proof.
  intros refused msg. split; [reflexivity|].
  destruct (X3_scrape_failure_is_one_of_six
              simplePackages refused "http://ex.com/" msg eq_refl)
    as [(e & Hreq & _)|(req & Hreq & [(e & Hdo & Hm)|(resp & Hdo & _)])].
  - discriminate Hreq.
  - exists e. split; [exact Hdo | exact Hm].
  - discriminate Hdo.
Defined.

(** ** What extraction keeps *)

Lemma fold_preserves {S E A : Type} (step : S -> E -> S) (F : S -> A) :
  (forall s e, F (step s e) = F s) ->
  forall l s, F (fold_left step l s) = F s.
Proof.
  intros Hstep l. induction l as [|e l IH]; intros s; cbn.
  - reflexivity.
  - now rewrite IH, Hstep.
Qed.

Section Frames.

Context {P : Packages}.

Lemma visitNode_URL (n : Node) (d : ScrapedData) (b : string) :
  URL (visitNode n d b) = URL d.
Proof.
  unfold visitNode, extractMetaTag, extractLink, extractImage,
    extractHeading. cbv zeta.
  repeat match goal with
    | |- context [if ?c then _ else _] => destruct c
    end; reflexivity.
Qed.

Lemma extractData_URL (doc : Node) (d : ScrapedData) (b : string) :
  URL (extractData doc d b) = URL d.
Proof.
  rewrite extractData_walk.
  apply (fold_preserves (fun d e => visitNode e d b) URL).
  intros s e. apply visitNode_URL.
Qed.

Lemma scrapeWebPage_URL {T : Transport} (targetURL : string)
      (data : ScrapedData) :
  scrapeWebPage targetURL = Ok data -> URL data = targetURL.
Proof.
  unfold scrapeWebPage.
  destruct (http_NewRequestWithContext "GET" targetURL); [|discriminate].
  destruct (client_Do _); [|discriminate].
  destruct (checkResponse _); [|discriminate].
  destruct (html_Parse _) as [doc|]; [|discriminate].
  intros [= <-]. apply extractData_URL.
Qed.

Lemma visitNode_unhandled (n : Node) (d : ScrapedData) (b : string) :
  isHandled n = false -> visitNode n d b = d.
Proof.
  destruct n as [t tag attrs cs].
  unfold isHandled, visitNode, isHeadingTag. cbn [Type_ Data].
  destruct (NodeType_eqb t ElementNode); [|reflexivity].
  cbn [andb]. intros H.
  repeat match type of H with
    | context [(tag =? ?k)%string] =>
        destruct (tag =? k)%string; cbn [orb] in H; try discriminate H
    end.
  reflexivity.
Qed.

Lemma visitNode_MetaTags_empty_key (n : Node) (d : ScrapedData) (b : string) :
  MetaTags (visitNode n d b) !! "" = MetaTags d !! "".
Proof.
  rewrite visitNode_MetaTags.
  destruct (isElement "meta" n); cbn [andb]; [|reflexivity].
  destruct (nonempty (metaKey n)) eqn:Hk; [|reflexivity].
  apply nonempty_true in Hk. now apply lookup_insert_ne.
Qed.

Lemma filter_nonempty_iff {A : Type} (p : A -> bool) (l : list A) :
  List.filter p l <> [] <-> exists e, In e l /\ p e = true.
Proof.
  split.
  - destruct (List.filter p l) as [|e l'] eqn:Hf; [congruence|].
    intros _. exists e. apply filter_In. rewrite Hf. now left.
  - intros (e & He & Hp) Hf.
    assert (Hin : In e (List.filter p l)) by (apply filter_In; auto).
    rewrite Hf in Hin. destruct Hin.
Qed.

Lemma flat_map_length_filter {A B : Type} (g : A -> list B)
      (p : A -> bool) (x : A -> B) (l : list A) :
  (forall e, g e = if p e then [x e] else []) ->
  length (flat_map g l) = length (List.filter p l).
Proof.
  intros Hg. induction l as [|e l IH]; cbn; [reflexivity|].
  rewrite length_app, Hg, IH. now destruct (p e).
Qed.

End Frames.

(** X4.  Extraction never touches the [URL] field: after any tree it
    is what it was, so the data of a successful scrape carries the
    target URL. *)
Theorem X4_extraction_keeps_source_url :
  forall (P : Packages) (doc : Node) (d : ScrapedData) (baseURL : string),
    URL (extractData doc d baseURL) = URL d
    /\ (forall (T : Transport) (targetURL : string) (data : ScrapedData),
          scrapeWebPage targetURL = Ok data -> URL data = targetURL).
Proof.
  intros P doc d baseURL. split.
  - apply extractData_URL.
  - intros T targetURL data. apply scrapeWebPage_URL.
Qed.

Lemma X4_extraction_keeps_source_url_witness :
  let page :=
    document [element "a" [attr "href" "https://ex.org/a"] [textNode "A"]] in
  let P := packagesWithPage page in
  let T := cannedTransport (Ok (htmlResponse 200 "<a></a>")) in
  let data := @extractData P page (newScrapedData "http://ex.com/")
                           "http://ex.com/" in
  @scrapeWebPage P T "http://ex.com/" = Ok data
  /\ URL data = "http://ex.com/".
Proof.
  intros page P T data. split; [reflexivity|].
  exact (proj2 (X4_extraction_keeps_source_url
                  P page (newScrapedData "") "")
               T "http://ex.com/" data eq_refl).
Defined.

(** X5.  The three sequences are only ever extended at the end: what
    was there before the walk is still there, in front and in order, and
    what a tree adds does not depend on what was there. *)
Theorem X5_sequences_are_append_only :
  forall (P : Packages) (doc : Node) (d : ScrapedData)
         (baseURL targetURL : string),
    let fresh := extractData doc (newScrapedData targetURL) baseURL in
    Links (extractData doc d baseURL) = Links d ++ Links fresh
    /\ Images (extractData doc d baseURL) = Images d ++ Images fresh
    /\ Headings (extractData doc d baseURL) = Headings d ++ Headings fresh.
Proof.
  intros P doc d baseURL targetURL fresh. subst fresh.
  rewrite !extractData_walk.
  rewrite !walk_Links, !walk_Images, !walk_Headings.
  cbn [Links Images Headings newScrapedData app]. auto.
Qed.

(** X6.  A tree in which no node is an element named [title], [meta],
    [a], [img] or [h1] ... [h6] leaves the record exactly as it was; in
    particular text, comment and doctype nodes never count, whatever
    their data. *)
Theorem X6_unhandled_nodes_change_nothing :
  forall (P : Packages) (doc : Node) (d : ScrapedData) (baseURL : string),
    Forall (fun e => isHandled e = false) (preorder doc) ->
    extractData doc d baseURL = d.
Proof.
  intros P doc d baseURL Hall. rewrite extractData_walk. unfold walk.
  revert d. induction Hall as [|e l He _ IH]; intros d; cbn [fold_left].
  - reflexivity.
  - rewrite (visitNode_unhandled e d baseURL He). apply IH.
Qed.

(** A page of divisions, a comment that reads [title] and a text that
    reads [meta]: nothing is extracted. *)
Lemma X6_unhandled_nodes_change_nothing_witness :
  let doc :=
    document
      [mkNode CommentNode "title" [] [];
       element "div" [attr "href" "/x"] [textNode "meta"; element "p" [] []]]
  in
  let d := newScrapedData "http://ex.com/" in
  Forall (fun e => isHandled e = false) (preorder doc)
  /\ @extractData simplePackages doc d "http://ex.com/" = d.
Proof.
  intros doc d.
  assert (H : Forall (fun e => isHandled e = false) (preorder doc))
    by (repeat constructor).
  split; [exact H|].
  exact (X6_unhandled_nodes_change_nothing
           simplePackages doc d "http://ex.com/" H).
Defined.

(** ** Images *)

(** X7.  [extractImage] appends the resolved source exactly when the
    element's first [src] attribute exists and has a non-empty value, and
    otherwise changes nothing.  Over a tree the images of the result are
    those of the [img] elements with such a [src], in document order,
    each stored resolved or as written. *)
Theorem X7_image_iff_nonempty_first_src :
  forall (P : Packages) (n : Node) (d : ScrapedData) (baseURL : string),
    let first := head (List.filter (hasKey "src") (Attr n)) in
    (forall a, first = Some a -> Val a <> "" ->
               extractImage n d baseURL
               = set_Images d (Images d ++ [resolveURL baseURL (Val a)]))
    /\ (first = None \/ (exists a, first = Some a /\ Val a = "") ->
        extractImage n d baseURL = d)
    /\ (forall doc : Node,
          Images (extractData doc d baseURL)
          = Images d ++ flat_map (imageOf baseURL) (preorder doc))
    /\ (forall (doc : Node) (targetURL s : string),
          In s (Images (extractData doc (newScrapedData targetURL) baseURL)) ->
          exists e a,
            In e (preorder doc) /\ isElement "img" e = true
            /\ head (List.filter (hasKey "src") (Attr e)) = Some a
            /\ Val a <> ""
            /\ s = resolveURL baseURL (Val a)).
Proof.
  intros P n d baseURL first. split; [|split; [|split]].
  - intros a Ha Hval. rewrite extractImage_spec.
    unfold firstVal. fold first. rewrite Ha. cbn [from_option].
    apply nonempty_true in Hval. now rewrite Hval.
  - intros Hcase. rewrite extractImage_spec. unfold firstVal. fold first.
    destruct Hcase as [->|(a & -> & Hval)]; cbn [from_option].
    + reflexivity.
    + now rewrite Hval.
  - intros doc. rewrite extractData_walk. apply walk_Images.
  - intros doc targetURL s. rewrite extractData_walk, walk_Images.
    cbn [Images newScrapedData app]. rewrite in_flat_map.
    intros (e & He & Hs). apply in_imageOf in Hs as (Ha & Hne & ->).
    pose proof Hne as Hne'.
    apply firstVal_nonempty in Hne' as (a & Hhead & Hval).
    exists e, a. repeat split; try assumption.
    unfold firstVal. rewrite Hhead. reflexivity.
Qed.

(** An image with two sources keeps the first; one with an empty
    [src] and one with only [data-src] are skipped. *)
Lemma X7_image_iff_nonempty_first_src_witness :
  let two :=
    element "img" [attr "src" "https://ex.org/i.png"; attr "src" "/j.png"] []
  in
  let lazy := element "img" [attr "data-src" "/k.png"] [] in
  let empty := element "img" [attr "src" ""; attr "alt" "x"] [] in
  let d := newScrapedData "http://ex.com/" in
  (head (List.filter (hasKey "src") (Attr two))
   = Some (attr "src" "https://ex.org/i.png")
   /\ Images (@extractImage simplePackages two d "http://ex.com/")
      = ["https://ex.org/i.png"])
  /\ (head (List.filter (hasKey "src") (Attr lazy)) = None
      /\ @extractImage simplePackages lazy d "http://ex.com/" = d)
  /\ (head (List.filter (hasKey "src") (Attr empty)) = Some (attr "src" "")
      /\ @extractImage simplePackages empty d "http://ex.com/" = d).
Proof.
  intros two lazy empty d. split; [|split].
  - split; [reflexivity|].
    rewrite (proj1 (X7_image_iff_nonempty_first_src
                      simplePackages two d "http://ex.com/")
                   (attr "src" "https://ex.org/i.png") eq_refl);
      [reflexivity | discriminate].
  - split; [reflexivity|].
    apply (proj1 (proj2 (X7_image_iff_nonempty_first_src
                           simplePackages lazy d "http://ex.com/"))).
    left. reflexivity.
  - split; [reflexivity|].
    apply (proj1 (proj2 (X7_image_iff_nonempty_first_src
                           simplePackages empty d "http://ex.com/"))).
    right. exists (attr "src" ""). split; reflexivity.
Defined.

(** ** Headings of the result *)

(** X8.  Extraction keeps the headings well formed: if every heading of
    the record has a level from 1 to 6 and a non-empty text before the
    walk, so has every heading after it.  The level-0 default of
    [extractHeading] is never stored. *)
Theorem X8_headings_stay_well_formed :
  forall (P : Packages) (doc : Node) (d : ScrapedData) (baseURL : string),
    Forall headingOk (Headings d) ->
    Forall headingOk (Headings (extractData doc d baseURL)).
Proof.
  intros P doc d baseURL Hd. rewrite extractData_walk, walk_Headings.
  apply Forall_app. split; [exact Hd|].
  apply List.Forall_forall. intros h Hin.
  apply in_flat_map in Hin as (e & _ & Hh). unfold headingOf in Hh.
  destruct (isHeadingElement e) eqn:He; cbn [andb] in Hh; [|destruct Hh].
  destruct (nonempty _) eqn:Ht; [|destruct Hh].
  destruct Hh as [<-|[]]. unfold headingOk. cbn [Heading_Level Heading_Text].
  split.
  - apply isHeadingTag_level. unfold isHeadingElement in He.
    apply andb_true_iff in He as (_ & He). exact He.
  - now apply nonempty_true.
Qed.

Lemma X8_headings_stay_well_formed_witness :
  let doc :=
    document [element "h1" [] [textNode " Top "];
              element "h6" [] [textNode "Low"];
              element "h2" [] [textNode "   "]] in
  let data := @extractData simplePackages doc (newScrapedData "u") "u" in
  Forall headingOk (Headings (newScrapedData "u"))
  /\ Headings data = [mkHeading 1 "Top"; mkHeading 6 "Low"]
  /\ Forall headingOk (Headings data).
Proof.
  intros doc data.
  assert (H0 : Forall headingOk (Headings (newScrapedData "u")))
    by constructor.
  split; [exact H0|]. split; [reflexivity|].
  exact (X8_headings_stay_well_formed
           simplePackages doc (newScrapedData "u") "u" H0).
Defined.

(** ** Keys of the meta-tag map *)

Section MetaKeys.

Context {P : Packages}.

Lemma walk_MetaTags_empty_key (b : string) (l : list Node) (d : ScrapedData) :
  MetaTags (walk b l d) !! "" = MetaTags d !! "".
Proof.
  apply (fold_preserves (fun d e => visitNode e d b)
                        (fun d => MetaTags d !! "")).
  intros s e. apply visitNode_MetaTags_empty_key.
Qed.

End MetaKeys.

(** X9.  The empty string is never made a key of the meta-tag map, and
    after a walk from the empty record a key is in the map exactly when
    some [meta] element of the tree is filed under it (by its name, or
    by its property when it has no name).  Entries that were in the map
    before the walk stay unless the tree writes the same key. *)
Theorem X9_meta_map_keys :
  forall (P : Packages) (doc : Node) (d : ScrapedData)
         (baseURL targetURL : string),
    let fresh := extractData doc (newScrapedData targetURL) baseURL in
    MetaTags (extractData doc d baseURL) !! "" = MetaTags d !! ""
    /\ MetaTags fresh !! "" = None
    /\ (forall k,
          is_Some (MetaTags fresh !! k) <->
          k <> "" /\ exists e, In e (preorder doc) /\ isMetaKeyed k e = true)
    /\ MetaTags (extractData doc d baseURL) = MetaTags fresh ∪ MetaTags d.
Proof.
  intros P doc d baseURL targetURL fresh. subst fresh.
  rewrite !extractData_walk.
  assert (Hfresh : forall k, k <> "" ->
            MetaTags (walk baseURL (preorder doc) (newScrapedData targetURL))
              !! k
            = (fun e => metaContent e)
                <$> last (List.filter (isMetaKeyed k) (preorder doc))).
  { intros k Hk. rewrite (walk_MetaTags_lookup k baseURL _ _ Hk).
    cbn [MetaTags newScrapedData]. rewrite lookup_empty.
    now destruct (last _). }
  split; [|split; [|split]].
  - apply walk_MetaTags_empty_key.
  - rewrite walk_MetaTags_empty_key. reflexivity.
  - intros k. destruct (String.eqb_spec k "") as [->|Hk].
    + rewrite walk_MetaTags_empty_key. cbn [MetaTags newScrapedData].
      rewrite lookup_empty. split.
      * intros [x Hx]. discriminate Hx.
      * intros [Hne _]. congruence.
    + rewrite (Hfresh k Hk), <- filter_nonempty_iff, fmap_is_Some.
      split.
      * intros [e He]. split; [exact Hk|]. intros Hnil.
        rewrite Hnil in He. discriminate He.
      * intros [_ Hne].
        destruct (List.filter (isMetaKeyed k) (preorder doc)) as [|x l]
          using rev_ind; [congruence|].
        rewrite last_snoc. eauto.
  - apply map_eq. intros k. rewrite lookup_union.
    destruct (String.eqb_spec k "") as [->|Hk].
    + rewrite !walk_MetaTags_empty_key. cbn [MetaTags newScrapedData].
      rewrite lookup_empty. now destruct (MetaTags d !! "").
    + rewrite (Hfresh k Hk), (walk_MetaTags_lookup k baseURL _ _ Hk).
      destruct (last _); cbn; now destruct (MetaTags d !! k).
Qed.

(** A page with a named tag, a property tag and a tag with neither: the
    map has the first two keys and not the empty one. *)
Lemma X9_meta_map_keys_witness :
  let doc :=
    document
      [element "meta" [attr "name" "author"; attr "content" "N"] [];
       element "meta" [attr "property" "og:title"; attr "content" "T"] [];
       element "meta" [attr "charset" "utf-8"; attr "content" "C"] []] in
  let fresh := @extractData simplePackages doc (newScrapedData "u") "u" in
  MetaTags fresh !! "" = None
  /\ is_Some (MetaTags fresh !! "og:title")
  /\ ~ is_Some (MetaTags fresh !! "charset").
Proof.
  intros doc fresh.
  pose proof (X9_meta_map_keys simplePackages doc (newScrapedData "u")
                               "u" "u") as (_ & Hnone & Hkeys & _).
  split; [exact Hnone|]. split.
  - apply Hkeys. split; [discriminate|].
    exists (element "meta"
              [attr "property" "og:title"; attr "content" "T"] []).
    split; [right; right; left; reflexivity | reflexivity].
  - intros Hs. apply Hkeys in Hs as (_ & e & Hin & Hk).
    destruct Hin as [<-|[<-|[<-|[<-|[]]]]]; discriminate Hk.
Defined.

(** ** Text content *)

Lemma concatStrings_app (a b : list string) :
  concatStrings (a ++ b) = concatStrings a +:+ concatStrings b.
Proof.
  induction a as [|x a IH]; [reflexivity|].
  change (x +:+ concatStrings (a ++ b)
          = (x +:+ concatStrings a) +:+ concatStrings b).
  now rewrite IH, append_assoc.
Qed.

(** X10.  In a tree whose text nodes are leaves, the text content of a
    node is the data of the text nodes below it (the node included),
    joined in document order: element boundaries, comments and attribute
    values play no part. *)
Theorem X10_text_content_is_flattened_text :
  forall n : Node,
    textNodesAreLeaves n ->
    getTextContent n
    = concatStrings (map Data (List.filter isTextNode (preorder n))).
Proof.
  induction n as [t tag attrs cs IH] using Node_ind.
  unfold textNodesAreLeaves. cbn [preorder]. intros Hleaves.
  apply Forall_cons_1 in Hleaves as [Hhead Hrest].
  unfold isTextNode in Hhead at 1. cbn [Type_ Children] in Hhead.
  cbn [List.filter]. unfold isTextNode at 1. cbn [Type_].
  destruct (NodeType_eqb t TextNode) eqn:Ht.
  - rewrite (Hhead eq_refl). cbn [flat_map List.filter map getTextContent].
    rewrite Ht. unfold concatStrings. cbn [fold_right Data].
    now rewrite append_nil_r.
  - cbn [getTextContent]. rewrite Ht, fold_left_append.
    change ("" +:+ ?x) with x.
    clear Hhead. induction IH as [|c cs Hc _ IHcs]; [reflexivity|].
    cbn [flat_map map] in *. apply Forall_app in Hrest as [Hc' Hcs'].
    rewrite List.filter_app, map_app, concatStrings_app.
    rewrite <- (Hc Hc'), <- (IHcs Hcs'). reflexivity.
Qed.

(** A paragraph with nested emphasis, a comment and a link whose
    attribute holds text: only the text nodes count. *)
Lemma X10_text_content_is_flattened_text_witness :
  let n :=
    element "p" [attr "title" "tip"]
      [textNode "a ";
       element "em" [] [textNode "b"; element "i" [] [textNode "c"]];
       mkNode CommentNode "hidden" [] [];
       element "a" [attr "href" "/x"] [textNode " d"]] in
  textNodesAreLeaves n /\ getTextContent n = "a bc d".
Proof.
  intros n.
  assert (H : textNodesAreLeaves n)
    by (repeat constructor; discriminate).
  split; [exact H|].
  rewrite (X10_text_content_is_flattened_text n H). reflexivity.
Defined.

(** ** How many entries a tree yields *)

Section Counts.

Context {P : Packages}.

Lemma contributions_at_most_one (b : string) (e : Node) :
  (length (linkOf b e) + length (imageOf b e) + length (headingOf e) <= 1)%nat.
Proof.
  destruct e as [t tag attrs cs].
  unfold linkOf, imageOf, headingOf, isElement, isHeadingElement.
  cbn [Type_ Data Attr].
  destruct (NodeType_eqb t ElementNode); cbn [andb]; [|cbn; lia].
  destruct (String.eqb_spec tag "a") as [->|Ha].
  - cbn. destruct (nonempty _); cbn; lia.
  - destruct (String.eqb_spec tag "img") as [->|Hi].
    + cbn. destruct (nonempty _); cbn; lia.
    + cbn [andb length Nat.add].
      destruct (_ || _); cbn [andb]; [|cbn; lia].
      destruct (nonempty _); cbn; lia.
Qed.

End Counts.

(** X11.  Each qualifying element yields one entry: the number of
    links, images and headings after a walk from the empty record is the
    number of [a], [img] and heading elements that qualify, repeated
    targets included, and the three together are never more than the
    nodes of the tree. *)
Theorem X11_one_entry_per_qualifying_element :
  forall (P : Packages) (doc : Node) (baseURL targetURL : string),
    let data := extractData doc (newScrapedData targetURL) baseURL in
    length (Links data) = length (List.filter yieldsLink (preorder doc))
    /\ length (Images data) = length (List.filter yieldsImage (preorder doc))
    /\ length (Headings data)
       = length (List.filter
                   (fun e => isHeadingElement e
                             && nonempty (strings_TrimSpace (getTextContent e)))
                   (preorder doc))
    /\ (length (Links data) + length (Images data) + length (Headings data)
        <= length (preorder doc))%nat.
Proof.
  intros P doc baseURL targetURL data. subst data.
  rewrite extractData_walk, walk_Links, walk_Images, walk_Headings.
  cbn [Links Images Headings newScrapedData app].
  split; [|split; [|split]].
  - apply (flat_map_length_filter _ yieldsLink
             (fun e => mkLink (resolveURL baseURL (firstVal "href" (Attr e)))
                              (strings_TrimSpace (getTextContent e)))).
    reflexivity.
  - apply (flat_map_length_filter _ yieldsImage
             (fun e => resolveURL baseURL (firstVal "src" (Attr e)))).
    reflexivity.
  - apply (flat_map_length_filter _ _
             (fun e => mkHeading (headingLevel (Data e))
                                 (strings_TrimSpace (getTextContent e)))).
    reflexivity.
  - induction (preorder doc) as [|e l IH]; cbn [flat_map length];
      [lia|].
    rewrite !length_app.
    pose proof (contributions_at_most_one baseURL e). lia.
Qed.

(** ** More on the classifier *)

Lemma detectAntiBotService_range (resp : Response) :
  detectAntiBotService resp = "" \/ In (detectAntiBotService resp) antiBotLabels.
Proof.
  unfold detectAntiBotService, antiBotLabels.
  repeat match goal with
    | |- context [if ?c then _ else _] => destruct c
    end; cbn; auto 10.
Qed.

(** X12.  The classifier returns the empty string or one of its seven
    labels, and it returns a label only when a header it looks for is
    there: without [Server], [CF-Ray], the Akamai, Amazon, Incapsula,
    DataDome and Sucuri headers, the result is empty. *)
Theorem X12_classifier_range :
  forall resp : Response,
    (detectAntiBotService resp = ""
     \/ In (detectAntiBotService resp) antiBotLabels)
    /\ ((forall k, In k classifierHeaders ->
                   Header resp !! CanonicalMIMEHeaderKey k = None) ->
        detectAntiBotService resp = "").
Proof.
  intros resp. split; [apply detectAntiBotService_range|].
  intros Hnone.
  assert (Hget : forall k, In k classifierHeaders ->
                           Header_Get (Header resp) k = "").
  { intros k Hk. unfold Header_Get. now rewrite (Hnone k Hk). }
  unfold detectAntiBotService, nonempty.
  rewrite !Hget by (cbn; auto 12). reflexivity.
Qed.

(** A 404 from a plain server: no label. *)
Lemma X12_classifier_range_witness :
  let resp :=
    mkResponse 404 {[ "Content-Type" := ["text/html"];
                      "Date" := ["Tue, 03 Nov 2026 05:18:00 GMT"] ]}
               (Ok "not found") in
  (forall k, In k classifierHeaders ->
             Header resp !! CanonicalMIMEHeaderKey k = None)
  /\ detectAntiBotService resp = "".
Proof.
  intros resp.
  assert (H : forall k, In k classifierHeaders ->
                        Header resp !! CanonicalMIMEHeaderKey k = None).
  { intros k Hk. cbn in Hk.
    repeat (destruct Hk as [<-|Hk]; [reflexivity|]). destruct Hk. }
  split; [exact H|].
  exact (proj2 (X12_classifier_range resp) H).
Defined.

(** X13.  The classifier reads eleven header names and, of each, only
    the first value: two responses that agree on what [Header.Get] gives
    for these names get the same label, whatever else they carry. *)
Theorem X13_classifier_reads_eleven_headers :
  forall r1 r2 : Response,
    (forall k, In k classifierHeaders ->
               Header_Get (Header r1) k = Header_Get (Header r2) k) ->
    detectAntiBotService r1 = detectAntiBotService r2.
Proof.
  intros r1 r2 Hsame. unfold detectAntiBotService.
  rewrite !(Hsame "Server"), !(Hsame "CF-Ray"),
    !(Hsame "X-Akamai-Transformed"), !(Hsame "X-Akamai-Session-Info"),
    !(Hsame "X-Amzn-RequestId"), !(Hsame "X-Amzn-Trace-Id"),
    !(Hsame "X-Iinfo"), !(Hsame "X-CDN"), !(Hsame "X-DataDome"),
    !(Hsame "X-Sucuri-ID"), !(Hsame "X-Sucuri-Cache")
    by (cbn; auto 12).
  reflexivity.
Qed.

(** Two refusals by Sucuri that differ in status, body, extra headers
    and in the second value of the Sucuri header. *)
Lemma X13_classifier_reads_eleven_headers_witness :
  let r1 := mkResponse 403 {[ "X-Sucuri-Id" := ["14001"] ]} (Ok "") in
  let r2 :=
    mkResponse 503 {[ "X-Sucuri-Id" := ["14001"; "14002"];
                      "Via" := ["1.1 varnish"] ]} (Ok "blocked") in
  (forall k, In k classifierHeaders ->
             Header_Get (Header r1) k = Header_Get (Header r2) k)
  /\ detectAntiBotService r1 = detectAntiBotService r2.
Proof.
  intros r1 r2.
  assert (H : forall k, In k classifierHeaders ->
                        Header_Get (Header r1) k = Header_Get (Header r2) k).
  { intros k Hk. cbn in Hk.
    repeat (destruct Hk as [<-|Hk]; [reflexivity|]). destruct Hk. }
  split; [exact H|].
  exact (X13_classifier_reads_eleven_headers r1 r2 H).
Defined.

(** ** The message of a status failure *)

Lemma append_cons (c : ascii) (a b : string) :
  String c a +:+ b = String c (a +:+ b).
Proof. reflexivity. Qed.

Lemma mem_byte_app (c : ascii) (a b : string) :
  mem_byte c (a +:+ b) = mem_byte c a || mem_byte c b.
Proof.
  induction a as [|x a IH]; [reflexivity|].
  rewrite append_cons. cbn [mem_byte]. rewrite IH. apply orb_assoc.
Qed.

Lemma uint_no_percent (d : Decimal.uint) :
  mem_byte "%" (NilEmpty.string_of_uint d) = false.
Proof. induction d; cbn [NilEmpty.string_of_uint mem_byte]; auto. Qed.

Lemma itoa_no_percent (z : Z) : mem_byte "%" (itoa z) = false.
Proof.
  unfold itoa, NilZero.string_of_int, NilZero.string_of_uint.
  destruct (Z.to_int z) as [d|d]; destruct d; cbn [mem_byte];
    try reflexivity;
    match goal with
    | |- context [NilEmpty.string_of_uint ?u] =>
        pose proof (uint_no_percent u) as H;
        cbn [NilEmpty.string_of_uint mem_byte] in H; cbn; exact H
    end.
Qed.

(** X14.  The message built for a status other than 200 never holds a
    percent sign, whatever the status code and the headers are; passed
    to [fmt.Errorf] as the format, it is therefore printed as it is. *)
Theorem X14_status_message_has_no_verb :
  forall resp : Response,
    mem_byte "%" (statusMessage (StatusCode resp) (detectAntiBotService resp))
    = false.
Proof.
  intros resp. unfold statusMessage.
  pose proof (itoa_no_percent (StatusCode resp)) as Hi.
  destruct (detectAntiBotService_range resp) as [->|Hl].
  - cbn [nonempty String.eqb negb]. rewrite mem_byte_app, Hi. reflexivity.
  - unfold antiBotLabels in Hl. cbn [In] in Hl.
    repeat (destruct Hl as [<-|Hl];
            [cbn [nonempty String.eqb Ascii.eqb Bool.eqb negb andb];
             rewrite !mem_byte_app, Hi; reflexivity|]).
    destruct Hl.
Qed.

(** ** Substrings *)

Lemma HasPrefix_app (p s : string) : strings_HasPrefix (p +:+ s) p = true.
Proof.
  induction p as [|c p IH]; [now destruct s|].
  rewrite append_cons. cbn [strings_HasPrefix].
  now rewrite Ascii.eqb_refl.
Qed.

Lemma HasPrefix_inv (p s : string) :
  strings_HasPrefix s p = true -> exists post, s = p +:+ post.
Proof.
  revert s. induction p as [|c p IH]; intros s H.
  - exists s. reflexivity.
  - destruct s as [|d s]; [discriminate H|]. cbn [strings_HasPrefix] in H.
    destruct (Ascii.eqb_spec c d) as [->|]; [|discriminate H].
    destruct (IH s H) as (post & ->). exists post. reflexivity.
Qed.

Lemma Contains_app (pre sub post : string) :
  strings_Contains (pre +:+ sub +:+ post) sub = true.
Proof.
  induction pre as [|c pre IH].
  - change ("" +:+ ?x) with x.
    destruct (sub +:+ post) eqn:E; cbn [strings_Contains];
      rewrite <- E, HasPrefix_app; reflexivity.
  - rewrite append_cons. cbn [strings_Contains]. rewrite IH.
    apply orb_true_r.
Qed.

Lemma Contains_inv (s sub : string) :
  strings_Contains s sub = true -> exists pre post, s = pre +:+ sub +:+ post.
Proof.
  induction s as [|c s IH]; cbn [strings_Contains]; intros H.
  - rewrite orb_false_r in H. apply HasPrefix_inv in H as (post & ->).
    exists "", post. reflexivity.
  - apply orb_true_iff in H as [H|H].
    + apply HasPrefix_inv in H as (post & ->). exists "", post. reflexivity.
    + destruct (IH H) as (pre & post & ->).
      exists (String c pre), post. reflexivity.
Qed.

(** X15.  A response with a status other than 200 fails with a message
    that starts with [unexpected status code: ], holds the decimal
    status code and holds the label the classifier gave. *)
Theorem X15_status_failure_names_code_and_label :
  forall resp : Response,
    StatusCode resp <> 200%Z ->
    exists msg,
      checkResponse resp = Err msg
      /\ strings_HasPrefix msg "unexpected status code: " = true
      /\ strings_Contains msg (itoa (StatusCode resp)) = true
      /\ strings_Contains msg (detectAntiBotService resp) = true.
Proof.
  intros resp Hs. eexists. split; [apply (checkResponse_status resp Hs)|].
  unfold statusMessage.
  set (code := itoa (StatusCode resp)).
  set (label := detectAntiBotService resp).
  destruct (nonempty label) eqn:Hl.
  - split; [|split].
    + rewrite append_assoc. apply HasPrefix_app.
    + rewrite append_assoc. apply Contains_app.
    + rewrite <- (append_assoc _ " (detected: " (label +:+ ")")).
      apply Contains_app.
  - apply nonempty_false in Hl. rewrite Hl. split; [|split].
    + apply HasPrefix_app.
    + replace ("unexpected status code: " +:+ code)
        with ("unexpected status code: " +:+ code +:+ "")
        by (now rewrite append_nil_r).
      apply Contains_app.
    + now destruct ("unexpected status code: " +:+ code).
Qed.

Lemma X15_status_failure_names_code_and_label_witness :
  let resp := mkResponse 429 {[ "X-Datadome" := ["protected"] ]} (Ok "") in
  StatusCode resp <> 200%Z
  /\ exists msg,
       checkResponse resp = Err msg
       /\ strings_Contains msg "429" = true
       /\ strings_Contains msg "DataDome" = true.
Proof.
  intros resp.
  assert (Hs : StatusCode resp <> 200%Z) by (cbn; lia).
  split; [exact Hs|].
  destruct (X15_status_failure_names_code_and_label resp Hs)
    as (msg & Hm & _ & Hc & Hl).
  exists msg. split; [exact Hm|]. split; [exact Hc | exact Hl].
Defined.

(** X16.  With status 200 and a readable body, the response passes
    exactly when the first [Content-Type] value has [text/html]
    somewhere in it, in this case of letters; with no [Content-Type]
    header at all it fails, citing an empty content type. *)
Theorem X16_content_type_substring :
  forall (resp : Response) (body : string),
    StatusCode resp = 200%Z ->
    Body resp = Ok body ->
    (checkResponse resp = Ok body <->
     exists pre post,
       Header_Get (Header resp) "Content-Type" = pre +:+ "text/html" +:+ post)
    /\ (Header resp !! "Content-Type" = None ->
        checkResponse resp = Err "content type is not HTML: ").
Proof.
  intros resp body Hs Hb. split.
  - rewrite checkResponse_Ok. split.
    + intros (_ & Hc & _). now apply Contains_inv.
    + intros (pre & post & Hct). repeat split; try assumption.
      rewrite Hct. apply Contains_app.
  - intros Hnone.
    assert (Hget : Header_Get (Header resp) "Content-Type" = "").
    { unfold Header_Get.
      change (CanonicalMIMEHeaderKey "Content-Type") with "Content-Type".
      now rewrite Hnone. }
    rewrite (checkResponse_content_type resp Hs); rewrite Hget; reflexivity.
Qed.

(** [text/html] with a charset passes; the same in capitals does not;
    an answer without the header does not. *)
Lemma X16_content_type_substring_witness :
  let ok := htmlResponse 200 "<p>x</p>" in
  let caps :=
    mkResponse 200 {[ "Content-Type" := ["TEXT/HTML"] ]} (Ok "<p>x</p>") in
  let none := mkResponse 200 ∅ (Ok "<p>x</p>") in
  (StatusCode ok = 200%Z /\ Body ok = Ok "<p>x</p>"
   /\ checkResponse ok = Ok "<p>x</p>")
  /\ (StatusCode caps = 200%Z /\ Body caps = Ok "<p>x</p>"
      /\ ~ exists pre post, "TEXT/HTML" = pre +:+ "text/html" +:+ post)
  /\ (Header none !! "Content-Type" = None
      /\ checkResponse none = Err "content type is not HTML: ").
Proof.
  intros ok caps none. split; [|split].
  - split; [reflexivity|]. split; [reflexivity|].
    apply (proj1 (X16_content_type_substring ok "<p>x</p>" eq_refl eq_refl)).
    exists "", "; charset=utf-8". reflexivity.
  - split; [reflexivity|]. split; [reflexivity|].
    intros H.
    apply (proj1 (X16_content_type_substring caps "<p>x</p>"
                    eq_refl eq_refl)) in H.
    discriminate H.
  - split; [reflexivity|].
    exact (proj2 (X16_content_type_substring none "<p>x</p>" eq_refl eq_refl)
                 eq_refl).
Defined.

(** ** The request's headers *)

(** X17.  With [Header.Set] as the header operation, the request that
    [scrapeWebPage] sends keeps its method and URL, carries the six
    browser headers with the values of the source, and has every other
    header as the new request had it: in particular [Accept-Encoding]
    is never set, so compression stays with the transport. *)
Theorem X17_request_headers :
  forall (newRequest : string -> string -> result HTTPRequest)
         (do : HTTPRequest -> result Response) (req : HTTPRequest),
    let req' := @setBrowserHeaders (httpTransport newRequest do) req in
    Req_Method req' = Req_Method req
    /\ Req_URL req' = Req_URL req
    /\ (forall k, ~ In k browserHeaderKeys ->
                  Req_Header req' !! k = Req_Header req !! k)
    /\ (Req_Header req !! "Accept-Encoding" = None ->
        Header_Get (Req_Header req') "Accept-Encoding" = "")
    /\ map (Header_Get (Req_Header req'))
           ["User-Agent"; "Accept"; "Accept-Language"; "DNT"; "Connection";
            "Upgrade-Insecure-Requests"]
       = ["Mozilla/5.0 (Macintosh; Intel Mac OS X 10_15_7) AppleWebKit/537.36 (KHTML, like Gecko) Chrome/120.0.0.0 Safari/537.36";
          "text/html,application/xhtml+xml,application/xml;q=0.9,image/avif,image/webp,image/apng,*/*;q=0.8";
          "en-US,en;q=0.9"; "1"; "keep-alive"; "1"].
Proof.
  intros newRequest do req req'. subst req'.
  unfold setBrowserHeaders. cbn [httpTransport Request_Header_Set].
  unfold HTTPRequest_Header_Set, Header_Set.
  cbn [Req_Method Req_URL Req_Header].
  change (CanonicalMIMEHeaderKey "User-Agent") with "User-Agent".
  change (CanonicalMIMEHeaderKey "Accept") with "Accept".
  change (CanonicalMIMEHeaderKey "Accept-Language") with "Accept-Language".
  change (CanonicalMIMEHeaderKey "DNT") with "Dnt".
  change (CanonicalMIMEHeaderKey "Connection") with "Connection".
  change (CanonicalMIMEHeaderKey "Upgrade-Insecure-Requests")
    with "Upgrade-Insecure-Requests".
  assert (Hother : forall k, ~ In k browserHeaderKeys ->
            <["Upgrade-Insecure-Requests" := ["1"]]>
              (<["Connection" := ["keep-alive"]]>
                 (<["Dnt" := ["1"]]>
                    (<["Accept-Language" := ["en-US,en;q=0.9"]]>
                       (<["Accept" := ["text/html,application/xhtml+xml,application/xml;q=0.9,image/avif,image/webp,image/apng,*/*;q=0.8"]]>
                          (<["User-Agent" := ["Mozilla/5.0 (Macintosh; Intel Mac OS X 10_15_7) AppleWebKit/537.36 (KHTML, like Gecko) Chrome/120.0.0.0 Safari/537.36"]]>
                             (Req_Header req)))))) !! k
            = Req_Header req !! k).
  { intros k Hk.
    rewrite !lookup_insert_ne
      by (intros <-; apply Hk; unfold browserHeaderKeys; cbn; auto 10).
    reflexivity. }
  split; [reflexivity|]. split; [reflexivity|]. split; [exact Hother|].
  split.
  - intros Hnone. unfold Header_Get.
    change (CanonicalMIMEHeaderKey "Accept-Encoding") with "Accept-Encoding".
    rewrite Hother, Hnone; [reflexivity|].
    unfold browserHeaderKeys. cbn [In].
    intros H. repeat (destruct H as [H|H]; [discriminate H|]). exact H.
  - cbn [map]. unfold Header_Get.
    change (CanonicalMIMEHeaderKey "User-Agent") with "User-Agent".
    change (CanonicalMIMEHeaderKey "Accept") with "Accept".
    change (CanonicalMIMEHeaderKey "Accept-Language") with "Accept-Language".
    change (CanonicalMIMEHeaderKey "DNT") with "Dnt".
    change (CanonicalMIMEHeaderKey "Connection") with "Connection".
    change (CanonicalMIMEHeaderKey "Upgrade-Insecure-Requests")
      with "Upgrade-Insecure-Requests".
    repeat first [rewrite lookup_insert_eq
                 | rewrite lookup_insert_ne by discriminate].
    reflexivity.
Qed.

(** On a new GET request, which has no header yet: no
    [Accept-Encoding] after the six are set, and [dnt] reads 1 under any
    spelling of the name. *)
Lemma X17_request_headers_witness :
  let T := httpTransport (fun m u => Ok (mkHTTPRequest m u ∅))
                         (fun _ => Err "no network") in
  let req := mkHTTPRequest "GET" "http://ex.com/" ∅ in
  let req' := @setBrowserHeaders T req in
  (~ In "Accept-Encoding" browserHeaderKeys
   /\ Req_Header req' !! "Accept-Encoding" = None)
  /\ (Req_Header req !! "Accept-Encoding" = None
      /\ Header_Get (Req_Header req') "accept-encoding" = "")
  /\ Header_Get (Req_Header req') "dnt" = "1".
Proof.
  intros T req req'.
  pose proof (X17_request_headers (fun m u => Ok (mkHTTPRequest m u ∅))
                                  (fun _ => Err "no network") req)
    as (_ & _ & Hother & Hnone & _).
  assert (Hk : ~ In "Accept-Encoding" browserHeaderKeys).
  { unfold browserHeaderKeys. cbn [In]. intros H.
    repeat (destruct H as [H|H]; [discriminate H|]). exact H. }
  split; [|split].
  - split; [exact Hk|]. exact (Hother "Accept-Encoding" Hk).
  - split; [reflexivity|]. exact (Hnone eq_refl).
  - reflexivity.
Defined.

(** ** A successful answer *)

Section Success.

Context {P : Packages}.

Lemma validateURL_has_scheme (targetURL : string) :
  validateURL targetURL = None ->
  forall base, url_Parse targetURL = Some base -> URL_Scheme base <> "".
Proof.
  intros Hv base Hb.
  apply validateURL_accepts in Hv as (u & Hu & Hs).
  rewrite Hb in Hu. injection Hu as <-.
  destruct Hs as [-> | ->]; discriminate.
Qed.

Lemma resolveURL_nonempty (baseURL href : string) :
  (forall base, url_Parse baseURL = Some base -> URL_Scheme base <> "") ->
  (forall b r, URL_Scheme b <> "" ->
               URL_Scheme (URL_ResolveReference b r) <> "") ->
  (forall u, URL_Scheme u <> "" -> URL_String u <> "") ->
  href <> "" -> resolveURL baseURL href <> "".
Proof.
  intros Hbase Hkeep Hprint Hne.
  destruct (resolveURL_cases baseURL href)
    as [(base & ref & Hb & _ & ->)|(_ & ->)].
  - apply Hprint, Hkeep, (Hbase base Hb).
  - exact Hne.
Qed.

Lemma scrapeWebPage_Ok_inv {T : Transport} (targetURL : string)
      (data : ScrapedData) :
  scrapeWebPage targetURL = Ok data ->
  exists doc, data = extractData doc (newScrapedData targetURL) targetURL.
Proof.
  unfold scrapeWebPage.
  destruct (http_NewRequestWithContext "GET" targetURL); [|discriminate].
  destruct (client_Do _); [|discriminate].
  destruct (checkResponse _); [|discriminate].
  destruct (html_Parse _) as [doc|]; [|discriminate].
  intros [= <-]. exists doc. reflexivity.
Qed.

End Success.

(** X18.  The handler answers 200 with data exactly for a GET whose
    URL is not empty, passes validation and is scraped with success.
    The data then carries the target URL; and since the base of every
    resolution is that validated URL, which has a scheme, no stored
    link or image is the empty string ([ResolveReference] keeps a scheme
    and [String] prints it). *)
Theorem X18_handler_success :
  forall (P : Packages) (T : Transport) (Method targetURL : string)
         (code : Z) (data : ScrapedData),
    (scrapeHandler Method targetURL = RespondData code data <->
     code = 200%Z /\ Method = "GET" /\ targetURL <> ""
     /\ validateURL targetURL = None /\ scrapeWebPage targetURL = Ok data)
    /\ (scrapeHandler Method targetURL = RespondData code data ->
        URL data = targetURL
        /\ ((forall b r, URL_Scheme b <> "" ->
                         URL_Scheme (URL_ResolveReference b r) <> "") ->
            (forall u, URL_Scheme u <> "" -> URL_String u <> "") ->
            Forall (fun l => Link_Href l <> "") (Links data)
            /\ Forall (fun s => s <> "") (Images data))).
Proof.
  intros P T Method targetURL code data. split.
  - apply scrapeHandler_data.
  - intros H. apply scrapeHandler_data in H as (_ & _ & _ & Hv & Hs).
    split; [now apply scrapeWebPage_URL|].
    intros Hkeep Hprint.
    pose proof (validateURL_has_scheme targetURL Hv) as Hbase.
    apply scrapeWebPage_Ok_inv in Hs as (doc & ->).
    rewrite extractData_walk, walk_Links, walk_Images.
    cbn [Links Images newScrapedData app]. split.
    + apply List.Forall_forall. intros l Hl.
      apply in_flat_map in Hl as (e & _ & Hl).
      apply in_linkOf in Hl as (_ & Hne & ->). cbn [Link_Href].
      now apply resolveURL_nonempty.
    + apply List.Forall_forall. intros s Hs.
      apply in_flat_map in Hs as (e & _ & Hs).
      apply in_imageOf in Hs as (_ & Hne & ->).
      now apply resolveURL_nonempty.
Qed.

(** A GET of a page with a relative link and an image: the answer is
    200, carries the URL, and nothing stored is empty. *)
Lemma X18_handler_success_witness :
  let page :=
    document [element "a" [attr "href" "a.html"] [textNode "A"];
              element "img" [attr "src" "i.png"] []] in
  let P := packagesWithPage page in
  let T := cannedTransport (Ok (htmlResponse 200 "<a></a>")) in
  let data := @extractData P page (newScrapedData "http://ex.com/p/")
                           "http://ex.com/p/" in
  @scrapeHandler P T "GET" "http://ex.com/p/" = RespondData 200 data
  /\ URL data = "http://ex.com/p/"
  /\ Forall (fun l => Link_Href l <> "") (Links data)
  /\ Forall (fun s => s <> "") (Images data).
Proof.
  intros page P T data.
  assert (H : @scrapeHandler P T "GET" "http://ex.com/p/"
              = RespondData 200 data) by reflexivity.
  destruct (proj2 (X18_handler_success P T "GET" "http://ex.com/p/"
                                       200%Z data) H)
    as (Hurl & Hstored).
  split; [exact H|]. split; [exact Hurl|].
  exact (Hstored simple_resolve_keeps_scheme simple_String_nonempty).
Defined.

(** ** No pruning *)

Lemma preorder_child (n c e : Node) :
  In c (Children n) -> In e (preorder c) -> In e (preorder n).
Proof.
  destruct n as [t tag attrs cs]. cbn [Children preorder]. intros Hc He.
  right. apply in_flat_map. exists c. auto.
Qed.

(** X19.  The walk goes below every node, matched or not: the nodes
    below a child of a node are nodes of the tree, and every [a], [img]
    or heading element of the tree that qualifies has its entry in the
    result, at whatever depth and under whatever ancestors it sits. *)
Theorem X19_no_subtree_is_skipped :
  forall (P : Packages) (doc : Node) (d : ScrapedData) (baseURL : string)
         (e : Node),
    In e (preorder doc) ->
    (forall c below, In c (Children e) -> In below (preorder c) ->
                     In below (preorder doc))
    /\ (yieldsLink e = true ->
        In (mkLink (resolveURL baseURL (firstVal "href" (Attr e)))
                   (strings_TrimSpace (getTextContent e)))
           (Links (extractData doc d baseURL)))
    /\ (yieldsImage e = true ->
        In (resolveURL baseURL (firstVal "src" (Attr e)))
           (Images (extractData doc d baseURL)))
    /\ (isHeadingElement e = true ->
        strings_TrimSpace (getTextContent e) <> "" ->
        In (mkHeading (headingLevel (Data e))
                      (strings_TrimSpace (getTextContent e)))
           (Headings (extractData doc d baseURL))).
Proof.
  intros P doc d baseURL e He. split; [|split; [|split]].
  - intros c below Hc Hb.
    assert (Hsub : forall n x, In x (preorder n) ->
              forall y, In y (preorder x) -> In y (preorder n)).
    { induction n as [t tag attrs cs IH] using Node_ind.
      intros x Hx y Hy. cbn [preorder] in Hx. destruct Hx as [<-|Hx].
      - exact Hy.
      - cbn [preorder]. right. apply in_flat_map in Hx as (c' & Hc' & Hx).
        apply in_flat_map. exists c'. split; [exact Hc'|].
        rewrite List.Forall_forall in IH. exact (IH c' Hc' x Hx y Hy). }
    apply (Hsub doc e He). now apply (preorder_child e c).
  - intros Hy. rewrite extractData_walk, walk_Links.
    apply in_or_app. right. apply in_flat_map. exists e. split; [exact He|].
    unfold linkOf. unfold yieldsLink in Hy. rewrite Hy. now left.
  - intros Hy. rewrite extractData_walk, walk_Images.
    apply in_or_app. right. apply in_flat_map. exists e. split; [exact He|].
    unfold imageOf. unfold yieldsImage in Hy. rewrite Hy. now left.
  - intros Hh Ht. rewrite extractData_walk, walk_Headings.
    apply in_or_app. right. apply in_flat_map. exists e. split; [exact He|].
    unfold headingOf. apply nonempty_true in Ht. rewrite Hh, Ht. now left.
Qed.

(** An image inside a link inside a heading inside a title: the
    image is still found. *)
Lemma X19_no_subtree_is_skipped_witness :
  let img := element "img" [attr "src" "https://ex.org/i.png"] [] in
  let doc :=
    document
      [element "title" []
         [element "h1" [] [element "a" [attr "href" "#"] [img]]]] in
  In img (preorder doc)
  /\ yieldsImage img = true
  /\ In "https://ex.org/i.png"
        (Images (@extractData simplePackages doc (newScrapedData "u") "u")).
Proof.
  intros img doc.
  assert (Hin : In img (preorder doc)) by (cbn; auto 6).
  split; [exact Hin|]. split; [reflexivity|].
  exact (proj1 (proj2 (proj2 (X19_no_subtree_is_skipped
                                simplePackages doc (newScrapedData "u") "u"
                                img Hin)))
               eq_refl).
Defined.
